(** * The Nvme namespace front end of the NVIDIA bridge

    A shallow embedding of [pkg/frontend/nvme_namespace.go]: the six gRPC
    handlers [CreateNvmeNamespace], [DeleteNvmeNamespace],
    [UpdateNvmeNamespace], [ListNvmeNamespaces], [GetNvmeNamespace] and
    [NvmeNamespaceStats] of the [Server], together with the helper
    [sortNvmeNamespaces].

    Conventions.
    - A Go [int] is a [Z] in the range of 64 bits, an [int32] a [Z] in the
      range of 32 bits; the wrap-around of an addition or of a conversion is
      written out ([int_add], [to_int32]).
    - A pointer to a protobuf message is an [option]: [None] is [nil].  A
      field read through a [nil] pointer panics ([deref]).
    - A Go map is a [gmap].
    - A handler is a computation in the monad [M]: it threads the [World]
      (the server's maps, the engine behind the JSON-RPC client, and the log
      of the commands sent to the engine) and ends in a value, a Go [error]
      or a panic.
    - [log.Printf] has no effect on the state and is left out. *)

From Stdlib Require Import ZArith Lia Ascii String DecimalString.
From stdpp Require Import base option list gmap strings sorting.

Local Open Scope Z_scope.
Local Open Scope string_scope.

(** ** Machine integers *)

Definition wrap (bits : Z) (z : Z) : Z :=
  (z + 2 ^ (bits - 1)) mod 2 ^ bits - 2 ^ (bits - 1).

(** [int32(x)] for a Go [int] [x]. *)
Definition to_int32 (z : Z) : Z := wrap 32 z.

(** [x + y] on Go [int]s (64 bits on the platforms the bridge runs on). *)
Definition int_add (x y : Z) : Z := wrap 64 (x + y).

Definition is_int (z : Z) : Prop := - 2 ^ 63 <= z < 2 ^ 63.

(** [strconv.FormatInt(x, 10)]. *)
Definition FormatInt10 (x : Z) : string := NilZero.string_of_int (Z.to_int x).

(** ** Errors and results *)

(** [google.golang.org/grpc/codes]: the codes the handlers use. *)
Inductive codes := InvalidArgument | NotFound | Unimplemented.

(** A Go [error]: a gRPC status ([status.Error], [status.Errorf]), a plain
    error ([fmt.Errorf]), or an error of a collaborator (a validation
    library, the JSON-RPC client), of which only an opaque text is kept. *)
Inductive error :=
| status_Error (c : codes) (msg : string)
| fmt_Errorf (msg : string)
| foreign_error (msg : string).

(** What a call of a handler ends in. *)
Inductive result (A : Type) :=
| Return (a : A)
| Fail (e : error)
| Panic.
Arguments Return {A} a.
Arguments Fail {A} e.
Arguments Panic {A}.

Definition succeeded {A} (r : result A) : Prop :=
  match r with Return _ => True | _ => False end.


(** ** Messages of the OPI storage API ([pb]) *)

Module pb.

Module ObjectKey.
Record t := mk { Value : string }.
End ObjectKey.

Module Uuid.
Record t := mk { Value : string }.
End Uuid.

Module NvmeNamespaceSpec.
Record t := mk {
  SubsystemId : option ObjectKey.t;
  VolumeId : option ObjectKey.t;
  HostNsid : Z;                      (* int32 *)
  Uuid : option Uuid.t;
  Nguid : string;
  Eui64 : Z                          (* int64 *)
}.
End NvmeNamespaceSpec.

Module NvmeNamespaceStatus.
Record t := mk { PciState : Z; PciOperState : Z }.
End NvmeNamespaceStatus.

Module NvmeNamespace.
Record t := mk {
  Name : string;
  Spec : option NvmeNamespaceSpec.t;
  Status : option NvmeNamespaceStatus.t
}.
End NvmeNamespace.

Module NvmeSubsystemSpec.
Record t := mk { Nqn : string }.
End NvmeSubsystemSpec.

Module NvmeSubsystem.
Record t := mk { Spec : option NvmeSubsystemSpec.t }.
End NvmeSubsystem.

Module CreateNvmeNamespaceRequest.
Record t := mk {
  NvmeNamespace : option NvmeNamespace.t;
  NvmeNamespaceId : string
}.
End CreateNvmeNamespaceRequest.

Module DeleteNvmeNamespaceRequest.
Record t := mk { Name : string; AllowMissing : bool }.
End DeleteNvmeNamespaceRequest.

Module UpdateNvmeNamespaceRequest.
Record t := mk {
  NvmeNamespace : option NvmeNamespace.t;
  UpdateMask : option (list string);
  AllowMissing : bool
}.
End UpdateNvmeNamespaceRequest.

Module ListNvmeNamespacesRequest.
Record t := mk {
  Parent : string;
  PageSize : Z;                      (* int32 *)
  PageToken : string
}.
End ListNvmeNamespacesRequest.

Module ListNvmeNamespacesResponse.
Record t := mk {
  NvmeNamespaces : list NvmeNamespace.t;
  NextPageToken : string
}.
End ListNvmeNamespacesResponse.

Module GetNvmeNamespaceRequest.
Record t := mk { Name : string }.
End GetNvmeNamespaceRequest.

Module NvmeNamespaceStatsRequest.
Record t := mk { NamespaceId : option ObjectKey.t }.
End NvmeNamespaceStatsRequest.

Module VolumeStats.
Record t := mk { ReadOpsCount : Z; WriteOpsCount : Z }.   (* int32 *)
End VolumeStats.

Module NvmeNamespaceStatsResponse.
Record t := mk {
  Id : option ObjectKey.t;
  Stats : option VolumeStats.t
}.
End NvmeNamespaceStatsResponse.

Module Empty.
Record t := mk { }.
End Empty.

End pb.
Import pb.

(** ** Parameters and results of the engine's commands ([models])

    The package [models] is not part of the front end; the records below
    carry the fields the handlers write or read. *)

Module models.

Module NvdaControllerNvmeNamespaceAttachParams.
Record t := mk {
  BdevType : string;
  Bdev : string;
  Nsid : Z;
  Subnqn : string;
  Cntlid : Z;
  UUID : string;
  Nguid : string;
  Eui64 : string
}.
End NvdaControllerNvmeNamespaceAttachParams.

Module NvdaControllerNvmeNamespaceDetachParams.
Record t := mk { Nsid : Z; Subnqn : string; Cntlid : Z }.
End NvdaControllerNvmeNamespaceDetachParams.

Module NvdaControllerNvmeNamespaceListParams.
Record t := mk { Subnqn : string; Cntlid : Z }.
End NvdaControllerNvmeNamespaceListParams.

(** An element of [result.Namespaces]; only [Nsid] is read. *)
Module NvdaNamespace.
Record t := mk { Nsid : Z }.
End NvdaNamespace.

Module NvdaControllerNvmeNamespaceListResult.
Record t := mk { Namespaces : list NvdaNamespace.t }.
End NvdaControllerNvmeNamespaceListResult.

(** An element of [c.Bdevs]. *)
Module NvdaBdevStats.
Record t := mk { BdevName : string; ReadIos : Z; WriteIos : Z }.
End NvdaBdevStats.

Module NvdaControllerStats.
Record t := mk { Bdevs : list NvdaBdevStats.t }.
End NvdaControllerStats.

Module NvdaControllerNvmeStatsResult.
Record t := mk { Controllers : list NvdaControllerStats.t }.
End NvdaControllerNvmeStatsResult.

End models.
Import models.

(** ** The JSON-RPC client

    [s.rpc.Call(method, &params, &result)] sends one command to the engine
    and decodes the reply into [result], whose Go type is fixed by the call
    site; a reply that does not decode is an [error].  A [Command R] is a
    method with its parameters, [R] the type of the decoded reply. *)

Inductive Command : Type -> Type :=
| controller_nvme_namespace_attach
    (params : NvdaControllerNvmeNamespaceAttachParams.t) : Command bool
| controller_nvme_namespace_detach
    (params : NvdaControllerNvmeNamespaceDetachParams.t) : Command bool
| controller_nvme_namespace_list
    (params : NvdaControllerNvmeNamespaceListParams.t)
  : Command NvdaControllerNvmeNamespaceListResult.t
| controller_nvme_get_iostat : Command NvdaControllerNvmeStatsResult.t.

(** A command as it is logged: its reply type is forgotten. *)
Definition Sent : Type := { R : Type & Command R }.
Definition sent {R} (c : Command R) : Sent := existT R c.

Definition is_attach (c : Sent) : bool :=
  match projT2 c with controller_nvme_namespace_attach _ => true | _ => false end.

(** The engine behind the client: a state of type [E] and its reaction to a
    command. *)
Class JSONRPC (E : Type) := {
  Call : forall R : Type, Command R -> E -> (error + R) * E
}.
Arguments Call {E _ R} _ _.

(** ** The server *)

(** The maps of [Server] (declared in [frontend.go]): the registry of the
    namespaces, the directory of the subsystems and the store of the
    pagination tokens. *)
Module Server.
Record t := mk {
  Namespaces : gmap string NvmeNamespace.t;
  Subsystems : gmap string NvmeSubsystem.t;
  Pagination : gmap string Z
}.
End Server.

Record World (E : Type) := mkWorld {
  server : Server.t;
  engine : E;
  calls : list Sent
}.
Arguments mkWorld {E}.
Arguments server {E}.
Arguments engine {E}.
Arguments calls {E}.

(** ** Collaborators outside the front end

    Validation libraries and helpers of other packages, whose code is not
    part of the front end: they are parameters of the development.  A
    validator returns [None] for Go's [nil] error. *)

Class Externals := {
  (** [fieldbehavior.ValidateRequiredFields(in)], one per request type. *)
  ValidateRequiredFields_Create : CreateNvmeNamespaceRequest.t -> option error;
  ValidateRequiredFields_Delete : DeleteNvmeNamespaceRequest.t -> option error;
  ValidateRequiredFields_Update : UpdateNvmeNamespaceRequest.t -> option error;
  ValidateRequiredFields_List : ListNvmeNamespacesRequest.t -> option error;
  ValidateRequiredFields_Get : GetNvmeNamespaceRequest.t -> option error;
  ValidateRequiredFields_Stats : NvmeNamespaceStatsRequest.t -> option error;
  (** [resourceid.ValidateUserSettable(id)]. *)
  resourceid_ValidateUserSettable : string -> option error;
  (** [resourcename.Validate(name)]. *)
  resourcename_Validate : string -> option error;
  (** [fieldmask.Validate(mask, message)]. *)
  fieldmask_Validate : option (list string) -> NvmeNamespace.t -> option error;
  (** [server.ResourceIDToVolumeName(resourceID)]. *)
  ResourceIDToVolumeName : string -> string;
  (** [server.ExtractPagination(pageSize, pageToken, pagination)]: the
      resolved [(size, offset)] or an error. *)
  ExtractPagination : Z -> string -> gmap string Z -> error + Z * Z
}.

(** [server.ProtoClone(m)]: a deep copy; on values, the identity. *)
Definition ProtoClone (m : NvmeNamespace.t) : NvmeNamespace.t := m.

(** [s[lo:hi]] on a slice whose capacity is its length: a panic unless
    [0 <= lo <= hi <= len(s)]. *)
Definition slice {T} (s : list T) (lo hi : Z) : result (list T) :=
  if decide (0 <= lo /\ lo <= hi /\ hi <= Z.of_nat (length s))
  then Return (take (Z.to_nat (hi - lo)) (drop (Z.to_nat lo) s))
  else Panic.

(** [server.LimitPagination(result, offset, size)], a generic helper of the
    SPDK bridge: [end := offset + size]; when [end < len(result)] there are
    more elements, otherwise [end = len(result)]; the page is
    [result[offset:end]]. *)
Definition LimitPagination {T} (result_ : list T) (offset size : Z)
  : result (list T * bool) :=
  let end_ := int_add offset size in
  let hasMoreElements := bool_decide (end_ < Z.of_nat (length result_)) in
  let end_ := if hasMoreElements then end_ else Z.of_nat (length result_) in
  match slice result_ offset end_ with
  | Return page => Return (page, hasMoreElements)
  | Fail e => Fail e
  | Panic => Panic
  end.

(** [uuid.UUID] of [github.com/google/uuid] is an array of 16 bytes, and
    [String] prints it as [xxxxxxxx-xxxx-xxxx-xxxx-xxxxxxxxxxxx]. *)
Module uuid.

Definition UUID : Type := list N.

Definition hexdigit (n : N) : Ascii.ascii :=
  match n with
  | 0 => "0" | 1 => "1" | 2 => "2" | 3 => "3" | 4 => "4" | 5 => "5"
  | 6 => "6" | 7 => "7" | 8 => "8" | 9 => "9" | 10 => "a" | 11 => "b"
  | 12 => "c" | 13 => "d" | 14 => "e" | _ => "f"
  end%N%char.

Fixpoint encodeHex (src : list N) : string :=
  match src with
  | [] => ""
  | b :: src =>
      String.String (hexdigit ((b / 16) mod 16))
        (String.String (hexdigit (b mod 16)) (encodeHex src))
  end.

Definition bytes (u : UUID) (lo hi : nat) : list N := take (hi - lo) (drop lo u).

Definition String (u : UUID) : string :=
  encodeHex (bytes u 0 4) +:+ "-" +:+ encodeHex (bytes u 4 6) +:+ "-" +:+
  encodeHex (bytes u 6 8) +:+ "-" +:+ encodeHex (bytes u 8 10) +:+ "-" +:+
  encodeHex (bytes u 10 16).

End uuid.

(** ** sortNvmeNamespaces (lines 31-35) *)

Definition has_Spec (n : NvmeNamespace.t) : bool :=
  match NvmeNamespace.Spec n with Some _ => true | None => false end.

(** [n.Spec.HostNsid], for an [n] whose [Spec] is not [nil]. *)
Definition HostNsid_of (n : NvmeNamespace.t) : Z :=
  match NvmeNamespace.Spec n with
  | Some spec => NvmeNamespaceSpec.HostNsid spec
  | None => 0
  end.

(** The order that the [less] of line 33 induces: [j] is not less than [i]. *)
Definition HostNsid_le (x y : NvmeNamespace.t) : Prop := HostNsid_of x <= HostNsid_of y.

#[global] Instance HostNsid_le_dec x y : Decision (HostNsid_le x y).
Proof. unfold HostNsid_le. apply _. Defined.

(** [sort.Slice] with the [less] of line 33.  [less] reads [Spec.HostNsid]
    of the elements it compares, and a slice of two elements or more has
    each of its elements compared: a [nil] [Spec] then panics.  [sort.Slice]
    does not say in which order it leaves elements of equal [HostNsid];
    the model keeps them in the order of a merge sort
    ([sorted_by_HostNsid_unique] shows that the choice is immaterial for
    the entries that [ListNvmeNamespaces] sorts). *)
Definition sortNvmeNamespaces (namespaces : list NvmeNamespace.t)
  : result (list NvmeNamespace.t) :=
  if bool_decide (2 <= length namespaces)%nat && negb (forallb has_Spec namespaces)
  then Panic
  else Return (merge_sort HostNsid_le namespaces).

(** ** The monad of the handlers *)

Section Frontend.

Context {E : Type} `{!JSONRPC E} `{!Externals}.

Definition M (A : Type) : Type := World E -> result A * World E.

Definition ret {A} (a : A) : M A := fun w => (Return a, w).

Definition bind {A B} (m : M A) (k : A -> M B) : M B :=
  fun w =>
    match m w with
    | (Return a, w') => k a w'
    | (Fail e, w') => (Fail e, w')
    | (Panic, w') => (Panic, w')
    end.

(** [return nil, err] *)
Definition fail {A} (e : error) : M A := fun w => (Fail e, w).

Definition panic {A} : M A := fun w => (Panic, w).

(** [if err := v; err != nil { return nil, err }] *)
Definition check (v : option error) : M unit :=
  match v with None => ret tt | Some e => fail e end.

(** Reading a field through the pointer [p]. *)
Definition deref {A} (p : option A) : M A :=
  match p with Some a => ret a | None => panic end.

Definition lift {A} (r : result A) : M A := fun w => (r, w).

Definition get : M Server.t := fun w => (Return (server w), w).

Definition modify (f : Server.t -> Server.t) : M unit :=
  fun w => (Return tt, mkWorld (f (server w)) (engine w) (calls w)).

(** [err := s.rpc.Call(method, &params, &result)] followed by
    [if err != nil { return nil, err }]. *)
Definition rpc_Call {R} (c : Command R) : M R :=
  fun w =>
    let '(r, e') := Call c (engine w) in
    let w' := mkWorld (server w) e' (calls w ++ [sent c]) in
    match r with
    | inl err => (Fail err, w')
    | inr v => (Return v, w')
    end.

#[local] Notation "x <- m ; k" := (bind m (fun x => k))
  (at level 100, m at next level, right associativity,
   format "'[v' x  <-  m ; '/' k ']'").
#[local] Notation "m ;; k" := (bind m (fun _ => k))
  (at level 100, right associativity, format "'[v' m ;; '/' k ']'").

Definition set_Namespaces (f : gmap string NvmeNamespace.t -> gmap string NvmeNamespace.t)
    (s : Server.t) : Server.t :=
  Server.mk (f (Server.Namespaces s)) (Server.Subsystems s) (Server.Pagination s).

Definition set_Pagination (f : gmap string Z -> gmap string Z) (s : Server.t) : Server.t :=
  Server.mk (Server.Namespaces s) (Server.Subsystems s) (f (Server.Pagination s)).

(** ** CreateNvmeNamespace (lines 38-101)

    [sysid] is the identifier that [resourceid.NewSystemGenerated()]
    returns in this call. *)

(** [&pb.NvmeNamespaceStatus{PciState: 2, PciOperState: 1}] *)
Definition attached : NvmeNamespaceStatus.t :=
  NvmeNamespaceStatus.mk 2 1.

(** [&pb.NvmeNamespaceSpec{HostNsid: nsid}]: the other fields keep their zero
    values. *)
Definition only_HostNsid (nsid : Z) : NvmeNamespaceSpec.t :=
  NvmeNamespaceSpec.mk None None nsid None "" 0.

Definition CreateNvmeNamespace (sysid : string) (in_ : CreateNvmeNamespaceRequest.t)
  : M NvmeNamespace.t :=
  (* check required fields *)
  check (ValidateRequiredFields_Create in_) ;;
  (* check input parameters validity *)
  ns <- deref (CreateNvmeNamespaceRequest.NvmeNamespace in_) ;
  let invalid :=
    status_Error InvalidArgument "invalid input subsystem parameters" in
  spec <- match NvmeNamespace.Spec ns with
          | None => fail invalid
          | Some spec => ret spec
          end ;
  subsystemId <- match NvmeNamespaceSpec.SubsystemId spec with
                 | None => fail invalid
                 | Some k =>
                     if decide (ObjectKey.Value k = "") then fail invalid else ret k
                 end ;
  (* see https://google.aip.dev/133#user-specified-ids *)
  resourceID <-
    (let id := CreateNvmeNamespaceRequest.NvmeNamespaceId in_ in
     if decide (id = "") then ret sysid
     else check (resourceid_ValidateUserSettable id) ;; ret id) ;
  let name := ResourceIDToVolumeName resourceID in
  let ns := NvmeNamespace.mk name (NvmeNamespace.Spec ns) (NvmeNamespace.Status ns) in
  (* idempotent API when called with same key, should return same object *)
  s <- get ;
  match Server.Namespaces s !! name with
  | Some namespace => ret namespace
  | None =>
      (* not found, so create a new one *)
      match Server.Subsystems s !! ObjectKey.Value subsystemId with
      | None =>
          fail (status_Error NotFound
                  ("unable to find key " +:+ ObjectKey.Value subsystemId))
      | Some subsys =>
          volumeId <- deref (NvmeNamespaceSpec.VolumeId spec) ;
          subsysSpec <- deref (NvmeSubsystem.Spec subsys) ;
          uuid <- deref (NvmeNamespaceSpec.Uuid spec) ;
          let params := NvdaControllerNvmeNamespaceAttachParams.mk
                          "spdk"
                          (ObjectKey.Value volumeId)
                          (NvmeNamespaceSpec.HostNsid spec)
                          (NvmeSubsystemSpec.Nqn subsysSpec)
                          0
                          (Uuid.Value uuid)
                          (NvmeNamespaceSpec.Nguid spec)
                          (FormatInt10 (NvmeNamespaceSpec.Eui64 spec)) in
          result_ <- rpc_Call (controller_nvme_namespace_attach params) ;
          if result_ : bool then
            let clone := ProtoClone ns in
            let response :=
              NvmeNamespace.mk (NvmeNamespace.Name clone) (NvmeNamespace.Spec clone)
                               (Some attached) in
            modify (set_Namespaces (insert name response)) ;;
            ret response
          else
            fail (status_Error InvalidArgument ("Could not create NS: " +:+ name))
      end
  end.

(** ** DeleteNvmeNamespace (lines 104-153) *)

Definition DeleteNvmeNamespace (in_ : DeleteNvmeNamespaceRequest.t) : M Empty.t :=
  (* check required fields *)
  check (ValidateRequiredFields_Delete in_) ;;
  (* Validate that a resource name conforms to the restrictions outlined in AIP-122. *)
  check (resourcename_Validate (DeleteNvmeNamespaceRequest.Name in_)) ;;
  (* fetch object from the database *)
  s <- get ;
  match Server.Namespaces s !! DeleteNvmeNamespaceRequest.Name in_ with
  | None =>
      if DeleteNvmeNamespaceRequest.AllowMissing in_ then ret Empty.mk
      else fail (status_Error NotFound
                   ("unable to find key " +:+ DeleteNvmeNamespaceRequest.Name in_))
  | Some namespace =>
      spec <- deref (NvmeNamespace.Spec namespace) ;
      subsystemId <- deref (NvmeNamespaceSpec.SubsystemId spec) ;
      match Server.Subsystems s !! ObjectKey.Value subsystemId with
      | None =>
          fail (fmt_Errorf ("unable to find subsystem " +:+ ObjectKey.Value subsystemId))
      | Some subsys =>
          subsysSpec <- deref (NvmeSubsystem.Spec subsys) ;
          let params := NvdaControllerNvmeNamespaceDetachParams.mk
                          (NvmeNamespaceSpec.HostNsid spec)
                          (NvmeSubsystemSpec.Nqn subsysSpec)
                          0 in
          result_ <- rpc_Call (controller_nvme_namespace_detach params) ;
          if result_ : bool then
            modify (set_Namespaces (delete (NvmeNamespace.Name namespace))) ;;
            ret Empty.mk
          else
            fail (status_Error InvalidArgument
                    ("Could not delete NS: " +:+ ObjectKey.Value subsystemId))
      end
  end.

(** ** UpdateNvmeNamespace (lines 156-186)

    [resourceID := path.Base(volume.Name)] is only logged. *)

Definition UpdateNvmeNamespace (in_ : UpdateNvmeNamespaceRequest.t) : M NvmeNamespace.t :=
  (* check required fields *)
  check (ValidateRequiredFields_Update in_) ;;
  ns <- deref (UpdateNvmeNamespaceRequest.NvmeNamespace in_) ;
  (* Validate that a resource name conforms to the restrictions outlined in AIP-122. *)
  check (resourcename_Validate (NvmeNamespace.Name ns)) ;;
  (* fetch object from the database *)
  s <- get ;
  match Server.Namespaces s !! NvmeNamespace.Name ns with
  | None =>
      fail (status_Error NotFound ("unable to find key " +:+ NvmeNamespace.Name ns))
  | Some volume =>
      check (fieldmask_Validate (UpdateNvmeNamespaceRequest.UpdateMask in_) ns) ;;
      fail (status_Error Unimplemented "UpdateNvmeNamespace method is not implemented")
  end.

(** ** ListNvmeNamespaces (lines 189-234)

    [u] is the value that [uuid.New()] returns in this call (line 224); it
    is used only when the page is truncated.  The response is built at
    line 233 from [Blobarray] alone: its [NextPageToken] keeps the zero
    value of the field. *)

(** The entry that line 230 builds for the element [r] of the page. *)
Definition list_entry (r : NvdaNamespace.t) : NvmeNamespace.t :=
  NvmeNamespace.mk "" (Some (only_HostNsid (to_int32 (NvdaNamespace.Nsid r)))) None.

Definition ListNvmeNamespaces (u : uuid.UUID) (in_ : ListNvmeNamespacesRequest.t)
  : M ListNvmeNamespacesResponse.t :=
  (* check required fields *)
  check (ValidateRequiredFields_List in_) ;;
  (* fetch object from the database *)
  s <- get ;
  page <- match ExtractPagination (ListNvmeNamespacesRequest.PageSize in_)
                  (ListNvmeNamespacesRequest.PageToken in_) (Server.Pagination s) with
          | inl perr => fail perr
          | inr page => ret page
          end ;
  let '(size, offset) := page in
  match Server.Subsystems s !! ListNvmeNamespacesRequest.Parent in_ with
  | None =>
      fail (status_Error NotFound
              ("unable to find key " +:+ ListNvmeNamespacesRequest.Parent in_))
  | Some subsys =>
      subsysSpec <- deref (NvmeSubsystem.Spec subsys) ;
      let params := NvdaControllerNvmeNamespaceListParams.mk
                      (NvmeSubsystemSpec.Nqn subsysSpec) 0 in
      result_ <- rpc_Call (controller_nvme_namespace_list params) ;
      limited <- lift (LimitPagination
                         (NvdaControllerNvmeNamespaceListResult.Namespaces result_)
                         offset size) ;
      let '(namespaces, hasMoreElements) := limited in
      (if hasMoreElements : bool then
         let token := uuid.String u in
         modify (set_Pagination (insert token (int_add offset size)))
       else ret tt) ;;
      let Blobarray := map list_entry namespaces in
      sorted <- lift (sortNvmeNamespaces Blobarray) ;
      ret (ListNvmeNamespacesResponse.mk sorted "")
  end.

(** ** GetNvmeNamespace (lines 237-283) *)

Definition GetNvmeNamespace (in_ : GetNvmeNamespaceRequest.t) : M NvmeNamespace.t :=
  (* check required fields *)
  check (ValidateRequiredFields_Get in_) ;;
  (* Validate that a resource name conforms to the restrictions outlined in AIP-122. *)
  check (resourcename_Validate (GetNvmeNamespaceRequest.Name in_)) ;;
  (* fetch object from the database *)
  s <- get ;
  match Server.Namespaces s !! GetNvmeNamespaceRequest.Name in_ with
  | None =>
      fail (status_Error NotFound
              ("unable to find key " +:+ GetNvmeNamespaceRequest.Name in_))
  | Some namespace =>
      spec <- deref (NvmeNamespace.Spec namespace) ;
      subsystemId <- deref (NvmeNamespaceSpec.SubsystemId spec) ;
      match Server.Subsystems s !! ObjectKey.Value subsystemId with
      | None =>
          fail (status_Error NotFound
                  ("unable to find key " +:+ ObjectKey.Value subsystemId))
      | Some subsys =>
          subsysSpec <- deref (NvmeSubsystem.Spec subsys) ;
          let params := NvdaControllerNvmeNamespaceListParams.mk
                          (NvmeSubsystemSpec.Nqn subsysSpec) 0 in
          result_ <- rpc_Call (controller_nvme_namespace_list params) ;
          match find (fun r => bool_decide
                                 (NvdaNamespace.Nsid r = NvmeNamespaceSpec.HostNsid spec))
                  (NvdaControllerNvmeNamespaceListResult.Namespaces result_) with
          | Some r =>
              ret (NvmeNamespace.mk ""
                     (Some (only_HostNsid (to_int32 (NvdaNamespace.Nsid r))))
                     (Some attached))
          | None =>
              fail (status_Error InvalidArgument
                      ("Could not find HostNsid: "
                         +:+ FormatInt10 (NvmeNamespaceSpec.HostNsid spec)))
          end
      end
  end.

(** ** NvmeNamespaceStats (lines 286-325)

    The loops of lines 312-321 return at the first device whose name is
    the volume reference, controllers and devices taken in order.
    [namespace.Spec.VolumeId.Value] is read at the first device compared
    or, when there is none, at line 322: on every path after the call of
    the engine. *)

Definition scan_Bdevs (volume : string) (bdevs : list NvdaBdevStats.t)
  : option NvdaBdevStats.t :=
  find (fun r => bool_decide (NvdaBdevStats.BdevName r = volume)) bdevs.

Fixpoint scan_Controllers (volume : string) (controllers : list NvdaControllerStats.t)
  : option NvdaBdevStats.t :=
  match controllers with
  | [] => None
  | c :: controllers =>
      match scan_Bdevs volume (NvdaControllerStats.Bdevs c) with
      | Some r => Some r
      | None => scan_Controllers volume controllers
      end
  end.

Definition NvmeNamespaceStats (in_ : NvmeNamespaceStatsRequest.t)
  : M NvmeNamespaceStatsResponse.t :=
  (* check required fields *)
  check (ValidateRequiredFields_Stats in_) ;;
  (* Validate that a resource name conforms to the restrictions outlined in AIP-122. *)
  namespaceId <- deref (NvmeNamespaceStatsRequest.NamespaceId in_) ;
  check (resourcename_Validate (ObjectKey.Value namespaceId)) ;;
  (* fetch object from the database *)
  s <- get ;
  match Server.Namespaces s !! ObjectKey.Value namespaceId with
  | None =>
      fail (status_Error NotFound
              ("unable to find key " +:+ ObjectKey.Value namespaceId))
  | Some namespace =>
      result_ <- rpc_Call controller_nvme_get_iostat ;
      spec <- deref (NvmeNamespace.Spec namespace) ;
      volumeId <- deref (NvmeNamespaceSpec.VolumeId spec) ;
      match scan_Controllers (ObjectKey.Value volumeId)
              (NvdaControllerNvmeStatsResult.Controllers result_) with
      | Some r =>
          ret (NvmeNamespaceStatsResponse.mk
                 (NvmeNamespaceStatsRequest.NamespaceId in_)
                 (Some (VolumeStats.mk (to_int32 (NvdaBdevStats.ReadIos r))
                                       (to_int32 (NvdaBdevStats.WriteIos r)))))
      | None =>
          fail (status_Error InvalidArgument
                  ("Could not find BdevName: " +:+ ObjectKey.Value volumeId))
      end
  end.

End Frontend.

(** ** Notions used to state the properties *)

Section Notions.

Context {E : Type} {rpc : JSONRPC E} {ext : Externals}.

(** The name under which [CreateNvmeNamespace] looks the registry up
    (line 60), for a request that passes the checks of lines 41-59;
    [None] for a request that one of these checks turns down. *)
Definition resolved_name (sysid : string) (in_ : CreateNvmeNamespaceRequest.t)
  : option string :=
  match ValidateRequiredFields_Create in_ with
  | Some _ => None
  | None =>
      ns ← CreateNvmeNamespaceRequest.NvmeNamespace in_;
      spec ← NvmeNamespace.Spec ns;
      k ← NvmeNamespaceSpec.SubsystemId spec;
      if decide (ObjectKey.Value k = "") then None
      else
        let id := CreateNvmeNamespaceRequest.NvmeNamespaceId in_ in
        if decide (id = "") then Some (ResourceIDToVolumeName sysid)
        else match resourceid_ValidateUserSettable id with
             | Some _ => None
             | None => Some (ResourceIDToVolumeName id)
             end
  end.

(** What the engine lists for the subsystem [parent] of the directory:
    the reply to the command of lines 209-214. *)
Definition engine_listing (parent : string) (w : World E)
  : option (list NvdaNamespace.t) :=
  subsys ← Server.Subsystems (server w) !! parent;
  subsysSpec ← NvmeSubsystem.Spec subsys;
  match fst (Call (controller_nvme_namespace_list
                     (NvdaControllerNvmeNamespaceListParams.mk
                        (NvmeSubsystemSpec.Nqn subsysSpec) 0))
               (engine w)) with
  | inl _ => None
  | inr result_ => Some (NvdaControllerNvmeNamespaceListResult.Namespaces result_)
  end.

(** The window of [size] elements that starts at [offset]. *)
Definition window {T} (l : list T) (offset size : Z) : list T :=
  take (Z.to_nat size) (drop (Z.to_nat offset) l).

(** The registry is keyed by the names of its entries, and every key has
    the form that [ResourceIDToVolumeName] gives to an identifier. *)
Definition registry_keyed (s : Server.t) : Prop :=
  forall k namespace,
    Server.Namespaces s !! k = Some namespace ->
    NvmeNamespace.Name namespace = k /\ exists resourceID, k = ResourceIDToVolumeName resourceID.

(** One request to the server, with the values that the random sources
    give during the call, or a move of the environment: the subsystems'
    own life cycle rewrites the directory, and the engine moves on its
    own. *)
Inductive Op :=
| Create (sysid : string) (in_ : CreateNvmeNamespaceRequest.t)
| Delete (in_ : DeleteNvmeNamespaceRequest.t)
| Update (in_ : UpdateNvmeNamespaceRequest.t)
| List (u : uuid.UUID) (in_ : ListNvmeNamespacesRequest.t)
| Get (in_ : GetNvmeNamespaceRequest.t)
| Stats (in_ : NvmeNamespaceStatsRequest.t)
| Environment (subsystems : gmap string NvmeSubsystem.t) (e : E).

Definition exec (op : Op) (w : World E) : World E :=
  match op with
  | Create sysid in_ => snd (CreateNvmeNamespace sysid in_ w)
  | Delete in_ => snd (DeleteNvmeNamespace in_ w)
  | Update in_ => snd (UpdateNvmeNamespace in_ w)
  | List u in_ => snd (ListNvmeNamespaces u in_ w)
  | Get in_ => snd (GetNvmeNamespace in_ w)
  | Stats in_ => snd (NvmeNamespaceStats in_ w)
  | Environment subsystems e =>
      mkWorld (Server.mk (Server.Namespaces (server w)) subsystems
                         (Server.Pagination (server w)))
              e (calls w)
  end.

Definition run (ops : list Op) (w : World E) : World E :=
  foldl (fun w op => exec op w) w ops.

(** The same world over another directory of subsystems. *)
Definition with_Subsystems (subsystems : gmap string NvmeSubsystem.t) (w : World E)
  : World E :=
  mkWorld (Server.mk (Server.Namespaces (server w)) subsystems
                     (Server.Pagination (server w)))
          (engine w) (calls w).

End Notions.

(** ** A concrete engine and concrete collaborators, for the examples *)

Module Sample.

(** An engine that gives the same replies at every call. *)
Record Scripted := mkScripted {
  attach_reply : error + bool;
  detach_reply : error + bool;
  list_reply : error + NvdaControllerNvmeNamespaceListResult.t;
  iostat_reply : error + NvdaControllerNvmeStatsResult.t
}.

Definition scripted_Call (R : Type) (c : Command R) (e : Scripted)
  : (error + R) * Scripted :=
  match c in Command R return (error + R) * Scripted with
  | controller_nvme_namespace_attach _ => (attach_reply e, e)
  | controller_nvme_namespace_detach _ => (detach_reply e, e)
  | controller_nvme_namespace_list _ => (list_reply e, e)
  | controller_nvme_get_iostat => (iostat_reply e, e)
  end.

Definition scripted : JSONRPC Scripted := {| Call := scripted_Call |}.

(** [server.ExtractPagination] as the SPDK bridge has it: a page size of
    0 is 50, one above 250 is 250, a negative one is refused; the offset
    is 0 without a token and the stored one with a known token. *)
Definition sample_ExtractPagination (pageSize : Z) (pageToken : string)
    (pagination : gmap string Z) : error + Z * Z :=
  if decide (pageSize < 0)
  then inl (status_Error InvalidArgument "negative PageSize is not allowed")
  else
    let size := if decide (pageSize = 0) then 50
                else if decide (250 < pageSize) then 250 else pageSize in
    if decide (pageToken = "") then inr (size, 0)
    else match pagination !! pageToken with
         | Some offset => inr (size, offset)
         | None => inl (status_Error NotFound
                          ("unable to find pagination token " +:+ pageToken))
         end.

(** Collaborators that accept every request. *)
Definition accepting : Externals := {|
  ValidateRequiredFields_Create := fun _ => None;
  ValidateRequiredFields_Delete := fun _ => None;
  ValidateRequiredFields_Update := fun _ => None;
  ValidateRequiredFields_List := fun _ => None;
  ValidateRequiredFields_Get := fun _ => None;
  ValidateRequiredFields_Stats := fun _ => None;
  resourceid_ValidateUserSettable := fun _ => None;
  resourcename_Validate := fun _ => None;
  fieldmask_Validate := fun _ _ => None;
  ResourceIDToVolumeName := fun id => "//storage.opiproject.org/volumes/" +:+ id;
  ExtractPagination := sample_ExtractPagination
|}.

Definition key (v : string) : option ObjectKey.t := Some (ObjectKey.mk v).

Definition spec1 (volume : string) (nsid : Z) : NvmeNamespaceSpec.t :=
  NvmeNamespaceSpec.mk (key "subsystems/nqn-1") (key volume) nsid
    (Some (Uuid.mk "1b4e28ba-2fa1-11d2-883f-b9a761bde3fb")) "1b4e28ba2fa111d2" 1967554867335598546.

Definition create1 (volume : string) (nsid : Z) : CreateNvmeNamespaceRequest.t :=
  CreateNvmeNamespaceRequest.mk (Some (NvmeNamespace.mk "" (Some (spec1 volume nsid)) None)) "ns1".

Definition name1 : string := "//storage.opiproject.org/volumes/ns1".

Definition stored1 (volume : string) (nsid : Z) : NvmeNamespace.t :=
  NvmeNamespace.mk name1 (Some (spec1 volume nsid)) (Some attached).

Definition subsystems1 : gmap string NvmeSubsystem.t :=
  {[ "subsystems/nqn-1" :=
       NvmeSubsystem.mk (Some (NvmeSubsystemSpec.mk "nqn.2022-09.io.spdk:opi1")) ]}.

Definition listing (ids : list Z) : NvdaControllerNvmeNamespaceListResult.t :=
  NvdaControllerNvmeNamespaceListResult.mk (map NvdaNamespace.mk ids).

Definition iostat1 : NvdaControllerNvmeStatsResult.t :=
  NvdaControllerNvmeStatsResult.mk
    [ NvdaControllerStats.mk [ NvdaBdevStats.mk "v0" 7 7 ];
      NvdaControllerStats.mk [ NvdaBdevStats.mk "v1" 10 3 ] ].

(** An engine that accepts attach and detach, lists [ids] and reports
    [iostat1]. *)
Definition engine1 (ids : list Z) : Scripted :=
  mkScripted (inr true) (inr true) (inr (listing ids)) (inr iostat1).

(** A world whose registry is [namespaces], over [subsystems1]. *)
Definition world1 (namespaces : gmap string NvmeNamespace.t) (ids : list Z)
  : World Scripted :=
  mkWorld (Server.mk namespaces subsystems1 ∅) (engine1 ids) [].

Definition u1 : uuid.UUID :=
  [0x6b; 0xa7; 0xb8; 0x10; 0x9d; 0xad; 0x11; 0xd1;
   0x80; 0xb4; 0x00; 0xc0; 0x4f; 0xd4; 0x30; 0xc8]%N.

Definition token1 : string := "6ba7b810-9dad-11d1-80b4-00c04fd430c8".

(** The same engine, but one that turns every attach and detach down. *)
Definition rejecting (ids : list Z) : Scripted :=
  mkScripted (inr false) (inr false) (inr (listing ids)) (inr iostat1).

Definition attach1 (volume : string) (nsid : Z) : Sent :=
  sent (controller_nvme_namespace_attach
          (NvdaControllerNvmeNamespaceAttachParams.mk
             "spdk" volume nsid "nqn.2022-09.io.spdk:opi1" 0
             "1b4e28ba-2fa1-11d2-883f-b9a761bde3fb" "1b4e28ba2fa111d2"
             "1967554867335598546")).

Definition list1 : Sent :=
  sent (controller_nvme_namespace_list
          (NvdaControllerNvmeNamespaceListParams.mk "nqn.2022-09.io.spdk:opi1" 0)).

(** A page of two entries of the subsystem [subsystems/nqn-1]. *)
Definition page_of_two : ListNvmeNamespacesRequest.t :=
  ListNvmeNamespacesRequest.mk "subsystems/nqn-1" 2 "".

Definition entry (nsid : Z) : NvmeNamespace.t :=
  NvmeNamespace.mk "" (Some (only_HostNsid nsid)) None.

End Sample.

(** ** Further notions: the commands of an operation, well-formed entries *)

Section Further.

Context {E : Type} {rpc : JSONRPC E} {ext : Externals}.

Definition is_detach (c : Sent) : bool :=
  match projT2 c with controller_nvme_namespace_detach _ => true | _ => false end.

Definition is_list (c : Sent) : bool :=
  match projT2 c with controller_nvme_namespace_list _ => true | _ => false end.

Definition is_iostat (c : Sent) : bool :=
  match projT2 c with controller_nvme_get_iostat => true | _ => false end.

(** The command that the handler behind [op] has a call site for. *)
Definition may_send (op : @Op E) (c : Sent) : bool :=
  match op with
  | Create _ _ => is_attach c
  | Delete _ => is_detach c
  | List _ _ | Get _ => is_list c
  | Stats _ => is_iostat c
  | Update _ | Environment _ _ => false
  end.

(** The same world over another registry. *)
Definition with_Namespaces (namespaces : gmap string NvmeNamespace.t) (w : World E)
  : World E :=
  mkWorld (Server.mk namespaces (Server.Subsystems (server w))
                     (Server.Pagination (server w)))
          (engine w) (calls w).

(** The request without what line 60 and line 98 overwrite: the [Name] and
    the [Status] of its namespace. *)
Definition without_Name_Status (in_ : CreateNvmeNamespaceRequest.t)
  : CreateNvmeNamespaceRequest.t :=
  CreateNvmeNamespaceRequest.mk
    (option_map (fun ns => NvmeNamespace.mk "" (NvmeNamespace.Spec ns) None)
                (CreateNvmeNamespaceRequest.NvmeNamespace in_))
    (CreateNvmeNamespaceRequest.NvmeNamespaceId in_).

(** An entry as line 97-99 stores it: the status of an attached namespace,
    and a [Spec] whose subsystem, volume and uuid are there. *)
Definition entry_well_formed (namespace : NvmeNamespace.t) : Prop :=
  NvmeNamespace.Status namespace = Some attached /\
  exists spec k volumeId uuid,
    NvmeNamespace.Spec namespace = Some spec /\
    NvmeNamespaceSpec.SubsystemId spec = Some k /\
    ObjectKey.Value k <> "" /\
    NvmeNamespaceSpec.VolumeId spec = Some volumeId /\
    NvmeNamespaceSpec.Uuid spec = Some uuid.

Definition registry_well_formed (s : Server.t) : Prop :=
  forall k namespace, Server.Namespaces s !! k = Some namespace -> entry_well_formed namespace.

(** Every subsystem of the directory has its [Spec]. *)
Definition directory_well_formed (s : Server.t) : Prop :=
  forall k subsys, Server.Subsystems s !! k = Some subsys -> NvmeSubsystem.Spec subsys <> None.

End Further.

(** More scenarios for the examples. *)
Module Scenario.

Import Sample.

(** An engine whose transport fails at every call. *)
Definition unreachable : Scripted :=
  mkScripted (inl (foreign_error "connection refused"))
             (inl (foreign_error "connection refused"))
             (inl (foreign_error "connection refused"))
             (inl (foreign_error "connection refused")).

Definition detach1 (nsid : Z) : Sent :=
  sent (controller_nvme_namespace_detach
          (NvdaControllerNvmeNamespaceDetachParams.mk nsid "nqn.2022-09.io.spdk:opi1" 0)).

Definition delete1 (allow_missing : bool) : DeleteNvmeNamespaceRequest.t :=
  DeleteNvmeNamespaceRequest.mk name1 allow_missing.

Definition get1 : GetNvmeNamespaceRequest.t := GetNvmeNamespaceRequest.mk name1.

Definition stats1 : NvmeNamespaceStatsRequest.t := NvmeNamespaceStatsRequest.mk (key name1).

Definition update1 : UpdateNvmeNamespaceRequest.t :=
  UpdateNvmeNamespaceRequest.mk
    (Some (NvmeNamespace.mk name1 (Some (spec1 "volumes/v9" 9)) None)) None true.

(** A registry with the one entry [stored1 "v1" 5]. *)
Definition registry1 : gmap string NvmeNamespace.t := {[ name1 := stored1 "v1" 5 ]}.

(** A world whose pagination store knows the token [token1] at [offset]. *)
Definition world_with_token (offset : Z) (ids : list Z) : World Scripted :=
  mkWorld (Server.mk ∅ subsystems1 {[ token1 := offset ]}) (engine1 ids) [].

Definition next_page : ListNvmeNamespacesRequest.t :=
  ListNvmeNamespacesRequest.mk "subsystems/nqn-1" 2 token1.

(** Two controllers that both report a device [v1]. *)
Definition iostat2 : NvdaControllerNvmeStatsResult.t :=
  NvdaControllerNvmeStatsResult.mk
    [ NvdaControllerStats.mk [ NvdaBdevStats.mk "v0" 7 7; NvdaBdevStats.mk "v1" 10 3 ];
      NvdaControllerStats.mk [ NvdaBdevStats.mk "v1" 99 98 ] ].

Definition engine2 : Scripted :=
  mkScripted (inr true) (inr true) (inr (listing [5])) (inr iostat2).

(** A request like [create1], without a uuid. *)
Definition create_without_uuid : CreateNvmeNamespaceRequest.t :=
  CreateNvmeNamespaceRequest.mk
    (Some (NvmeNamespace.mk ""
             (Some (NvmeNamespaceSpec.mk (key "subsystems/nqn-1") (key "volumes/v1") 5
                      None "1b4e28ba2fa111d2" 0))
             None))
    "ns1".

End Scenario.

(** * Properties of the handlers *)

Ltac unfold_M :=
  unfold bind, check, deref, lift, ret, fail, panic, get, modify, rpc_Call in *.

(** ** Machine integers *)


Lemma int_add_cases x y :
  is_int x -> is_int y ->
  int_add x y = x + y \/ int_add x y = x + y - 2 ^ 64 \/ int_add x y = x + y + 2 ^ 64.
Proof.
  unfold is_int, int_add, wrap. intros Hx Hy.
  change (2 ^ (64 - 1)) with 9223372036854775808 in *.
  change (2 ^ 63) with 9223372036854775808 in *.
  change (2 ^ 64) with 18446744073709551616 in *.
  pose proof (Z.mod_pos_bound (x + y + 9223372036854775808) 18446744073709551616 eq_refl).
  pose proof (Z.div_mod (x + y + 9223372036854775808) 18446744073709551616 ltac:(lia)).
  lia.
Qed.

Lemma int_add_range x y : is_int (int_add x y).
Proof.
  unfold is_int, int_add, wrap.
  change (2 ^ (64 - 1)) with 9223372036854775808 in *.
  change (2 ^ 63) with 9223372036854775808 in *.
  change (2 ^ 64) with 18446744073709551616 in *.
  pose proof (Z.mod_pos_bound (x + y + 9223372036854775808) 18446744073709551616 eq_refl).
  lia.
Qed.

(** ** Pagination helpers *)

(** A page that [LimitPagination] returns is the window of [k] elements at
    [o]; [o] lies within the result, [k] is not negative, and the sum
    [o + k] has not wrapped around when more elements remain. *)
Lemma LimitPagination_Return {T} (l : list T) o k page more :
  is_int o -> is_int k ->
  LimitPagination l o k = Return (page, more) ->
  0 <= o <= Z.of_nat (length l) /\ 0 <= k /\
  page = window l o k /\
  more = bool_decide (o + k < Z.of_nat (length l)) /\
  (more = true -> int_add o k = o + k).
Proof.
  intros Ho Hk. unfold LimitPagination, slice.
  pose proof (int_add_cases o k Ho Hk) as Hadd.
  pose proof (int_add_range o k) as Hrange.
  unfold is_int in *. change (2 ^ 63) with 9223372036854775808 in *.
  change (2 ^ 64) with 18446744073709551616 in *.
  destruct (bool_decide (int_add o k < Z.of_nat (length l))) eqn:Hmore.
  - apply bool_decide_eq_true in Hmore.
    destruct (decide _) as [(H0 & Hle & Hlen)|]; [|done].
    intros [= <- <-].
    assert (int_add o k = o + k) as Heq by lia.
    rewrite Heq in *.
    split_and!; try lia.
    + unfold window. do 2 f_equal. lia.
    + symmetry. apply bool_decide_eq_true. lia.
  - apply bool_decide_eq_false in Hmore.
    destruct (decide _) as [(H0 & Hle & Hlen)|]; [|done].
    intros [= <- <-].
    assert (int_add o k = o + k) as Heq by lia.
    rewrite Heq in *.
    split_and!; try lia.
    + unfold window. rewrite !take_ge; [done|..]; rewrite length_drop; lia.
    + symmetry. apply bool_decide_eq_false. lia.
Qed.


(** ** Sorting the entries of a listing *)

Lemma has_Spec_list_entry page : forallb has_Spec (map list_entry page) = true.
Proof. by induction page. Qed.

Lemma sortNvmeNamespaces_entries page :
  sortNvmeNamespaces (map list_entry page) =
    Return (merge_sort HostNsid_le (map list_entry page)).
Proof.
  unfold sortNvmeNamespaces. rewrite has_Spec_list_entry. simpl.
  by rewrite andb_false_r.
Qed.

#[local] Instance HostNsid_le_total : Total HostNsid_le.
Proof. intros x y. unfold HostNsid_le. lia. Qed.

#[local] Instance HostNsid_le_trans : Transitive HostNsid_le.
Proof. intros x y z. unfold HostNsid_le. lia. Qed.

(** Two entries of a listing with the same [HostNsid] are the same entry:
    a sorted arrangement of such entries is unique, whatever the sorting
    algorithm. *)
Lemma sorted_by_HostNsid_unique (page : list NvdaNamespace.t) (l1 l2 : list NvmeNamespace.t) :
  l1 ≡ₚ map list_entry page -> l2 ≡ₚ l1 ->
  Sorted HostNsid_le l1 -> Sorted HostNsid_le l2 -> l1 = l2.
Proof.
  intros H1 H2 S1 S2. apply (Sorted_unique_strong HostNsid_le); [|done..].
  intros x1 x2 Hx1 Hx2 Hle Hge.
  rewrite H2 in Hx2. rewrite H1 in Hx1, Hx2.
  apply list_elem_of_fmap in Hx1 as (r1 & -> & _), Hx2 as (r2 & -> & _).
  unfold HostNsid_le, HostNsid_of, list_entry in Hle, Hge |- *. simpl in Hle, Hge.
  cut (to_int32 (NvdaNamespace.Nsid r1) = to_int32 (NvdaNamespace.Nsid r2));
    [by intros ->|lia].
Qed.

(** ** The scan of the iostat result *)

Lemma scan_Bdevs_Some volume bdevs r :
  scan_Bdevs volume bdevs = Some r -> r ∈ bdevs /\ NvdaBdevStats.BdevName r = volume.
Proof.
  unfold scan_Bdevs. intros [Hin Hn%bool_decide_eq_true]%find_some.
  split; [by apply list_elem_of_In|done].
Qed.

Lemma scan_Bdevs_None volume bdevs :
  scan_Bdevs volume bdevs = None <-> forall r, r ∈ bdevs -> NvdaBdevStats.BdevName r <> volume.
Proof.
  unfold scan_Bdevs. split.
  - intros Hf r Hin%list_elem_of_In.
    pose proof (find_none _ _ Hf r Hin) as Hb. simpl in Hb.
    by apply bool_decide_eq_false in Hb.
  - intros Hall. destruct (find _ _) as [r|] eqn:Hf; [|done].
    apply find_some in Hf as [Hin Hn%bool_decide_eq_true].
    by destruct (Hall r); [apply list_elem_of_In|].
Qed.


Lemma scan_Controllers_None volume controllers :
  scan_Controllers volume controllers = None <->
  forall c r, c ∈ controllers -> r ∈ NvdaControllerStats.Bdevs c ->
              NvdaBdevStats.BdevName r <> volume.
Proof.
  induction controllers as [|c controllers IH]; simpl.
  - split; [|done]. by intros _ c r Hc%elem_of_nil.
  - destruct (scan_Bdevs volume _) as [r'|] eqn:Hb.
    + split; [done|]. intros Hall. apply scan_Bdevs_Some in Hb as [Hin Hn].
      destruct (Hall c r'); [left|done|done].
    + rewrite IH. split.
      * intros Hall c' r [->|Hc']%elem_of_cons Hr; [|by eapply Hall].
        by eapply scan_Bdevs_None.
      * intros Hall c' r Hc' Hr. eapply Hall; [by right|done].
Qed.

(** ** The handlers *)

Section Properties.

Context {E : Type} {rpc : JSONRPC E} {ext : Externals}.

(** *** CreateNvmeNamespace *)

(** A request resolves to [name] exactly when it passes the checks of lines
    41-59 and [name] is made from the caller's identifier or, without one,
    from the generated one. *)
Lemma resolved_name_Some sysid in_ name :
  resolved_name sysid in_ = Some name ->
  exists ns spec k resourceID,
    ValidateRequiredFields_Create in_ = None /\
    CreateNvmeNamespaceRequest.NvmeNamespace in_ = Some ns /\
    NvmeNamespace.Spec ns = Some spec /\
    NvmeNamespaceSpec.SubsystemId spec = Some k /\
    ObjectKey.Value k <> "" /\
    name = ResourceIDToVolumeName resourceID /\
    ((CreateNvmeNamespaceRequest.NvmeNamespaceId in_ = "" /\ resourceID = sysid) \/
     (CreateNvmeNamespaceRequest.NvmeNamespaceId in_ <> "" /\
      resourceID = CreateNvmeNamespaceRequest.NvmeNamespaceId in_ /\
      resourceid_ValidateUserSettable resourceID = None)).
Proof.
  unfold resolved_name. intros Hr.
  destruct (ValidateRequiredFields_Create in_) eqn:Hv; [done|].
  destruct (CreateNvmeNamespaceRequest.NvmeNamespace in_) as [ns|] eqn:Hns; [|done].
  simpl in Hr.
  destruct (NvmeNamespace.Spec ns) as [spec|] eqn:Hspec; [|done]. simpl in Hr.
  destruct (NvmeNamespaceSpec.SubsystemId spec) as [k|] eqn:Hk; [|done]. simpl in Hr.
  destruct (decide (ObjectKey.Value k = "")) as [|Hne]; [done|].
  destruct (decide (CreateNvmeNamespaceRequest.NvmeNamespaceId in_ = "")) as [Hid|Hid].
  - exists ns, spec, k, sysid. naive_solver.
  - destruct (resourceid_ValidateUserSettable _) eqn:Hu; [done|].
    exists ns, spec, k, (CreateNvmeNamespaceRequest.NvmeNamespaceId in_). naive_solver.
Qed.

(** Lines 61-66: a request that resolves to a registered name gets the
    stored entry back, and the world stays as it is. *)
Lemma Create_hit sysid in_ w name namespace :
  resolved_name sysid in_ = Some name ->
  Server.Namespaces (server w) !! name = Some namespace ->
  CreateNvmeNamespace sysid in_ w = (Return namespace, w).
Proof.
  intros (ns & spec & k & rid & Hv & Hns & Hspec & Hk & Hne & -> & Hid)%resolved_name_Some Hl.
  unfold CreateNvmeNamespace. unfold_M.
  rewrite Hv, Hns, Hspec, Hk. simpl.
  destruct (decide (ObjectKey.Value k = "")); [done|].
  destruct Hid as [[Hid ->]|(Hid & -> & Hu)].
  - rewrite Hid. simpl. rewrite Hl. done.
  - destruct (decide _); [done|]. rewrite Hu. simpl. rewrite Hl. done.
Qed.

(** A request that one of the checks of lines 41-59 turns down fails and
    leaves the world as it is. *)
Lemma resolved_name_None_Create sysid in_ w :
  resolved_name sysid in_ = None ->
  ~ succeeded (fst (CreateNvmeNamespace sysid in_ w)) /\
  snd (CreateNvmeNamespace sysid in_ w) = w.
Proof.
  unfold resolved_name, CreateNvmeNamespace. unfold_M. intros Hr.
  destruct (ValidateRequiredFields_Create in_); [by split; [intros []|]|].
  destruct (CreateNvmeNamespaceRequest.NvmeNamespace in_) as [ns|]; [|by split; [intros []|]].
  simpl in *.
  destruct (NvmeNamespace.Spec ns) as [spec|]; [|by split; [intros []|]]. simpl in *.
  destruct (NvmeNamespaceSpec.SubsystemId spec) as [k|]; [|by split; [intros []|]].
  simpl in *.
  destruct (decide (ObjectKey.Value k = "")); [by split; [intros []|]|].
  destruct (decide (CreateNvmeNamespaceRequest.NvmeNamespaceId in_ = "")); [done|].
  destruct (resourceid_ValidateUserSettable _); [by split; [intros []|]|done].
Qed.

(** Lines 67-100: a request that resolves to a name that is not registered
    either fails, with the server unchanged, or attaches the volume with one
    command and registers the response under the name. *)
Lemma Create_miss sysid in_ w name r w' :
  resolved_name sysid in_ = Some name ->
  Server.Namespaces (server w) !! name = None ->
  CreateNvmeNamespace sysid in_ w = (r, w') ->
  (~ succeeded r /\ server w' = server w) \/
  (exists response params,
      r = Return response /\
      NvmeNamespace.Name response = name /\
      NvmeNamespace.Status response = Some attached /\
      server w' = set_Namespaces (insert name response) (server w) /\
      calls w' = (calls w ++ [sent (controller_nvme_namespace_attach params)])%list).
Proof.
  intros (ns & spec & k & rid & Hv & Hns & Hspec & Hk & Hne & -> & Hid)%resolved_name_Some Hl.
  unfold CreateNvmeNamespace. unfold_M.
  rewrite Hv, Hns, Hspec, Hk. simpl.
  destruct (decide (ObjectKey.Value k = "")); [done|].
  assert (Hmiss : forall rid', rid' = rid ->
            Server.Namespaces (server w) !! ResourceIDToVolumeName rid' = None)
    by (by intros ? ->).
  intros Hc.
  destruct Hid as [[Hid ->]|(Hid & -> & Hu)].
  - rewrite Hid in Hc. simpl in Hc. rewrite Hl in Hc.
    repeat (case_match; simplify_eq/=);
      first [by left; split; [intros []|] | by right; eexists _, _].
  - destruct (decide _); [done|]. rewrite Hu in Hc. simpl in Hc. rewrite Hl in Hc.
    repeat (case_match; simplify_eq/=);
      first [by left; split; [intros []|] | by right; eexists _, _].
Qed.

Lemma resolved_name_user_id sysid sysid' in_ in' name :
  CreateNvmeNamespaceRequest.NvmeNamespaceId in_ <> "" ->
  CreateNvmeNamespaceRequest.NvmeNamespaceId in' =
    CreateNvmeNamespaceRequest.NvmeNamespaceId in_ ->
  resolved_name sysid in_ = Some name ->
  is_Some (resolved_name sysid' in') ->
  resolved_name sysid' in' = Some name.
Proof.
  intros Hid Heq (? & ? & ? & rid & _ & _ & _ & _ & _ & -> & Hrid)%resolved_name_Some
    [name' Hr'].
  rewrite Hr'. f_equal.
  apply resolved_name_Some in Hr' as (? & ? & ? & rid' & _ & _ & _ & _ & _ & -> & Hrid').
  f_equal. destruct Hrid as [[] | (_ & -> & _)]; [done|].
  destruct Hrid' as [[]|(_ & -> & _)]; congruence.
Qed.

Lemma Create_Return_registered sysid in_ w name r w' :
  resolved_name sysid in_ = Some name ->
  CreateNvmeNamespace sysid in_ w = (Return r, w') ->
  Server.Namespaces (server w') !! name = Some r.
Proof.
  intros Hr Hc.
  destruct (Server.Namespaces (server w) !! name) as [namespace|] eqn:Hl.
  - rewrite (Create_hit _ _ _ _ _ Hr Hl) in Hc. by simplify_eq.
  - destruct (Create_miss _ _ _ _ _ _ Hr Hl Hc)
      as [[Hs _]|(response & params & ? & _ & _ & -> & _)].
    + by destruct Hs.
    + simplify_eq. simpl. apply lookup_insert_eq.
Qed.

(** What [CreateNvmeNamespace] does to the server: nothing, or the
    registration of one entry under a name that was free. *)
Lemma Create_server sysid in_ w :
  server (snd (CreateNvmeNamespace sysid in_ w)) = server w \/
  exists resourceID response,
    NvmeNamespace.Name response = ResourceIDToVolumeName resourceID /\
    Server.Namespaces (server w) !! ResourceIDToVolumeName resourceID = None /\
    server (snd (CreateNvmeNamespace sysid in_ w)) =
      set_Namespaces (insert (ResourceIDToVolumeName resourceID) response) (server w).
Proof.
  unfold CreateNvmeNamespace. unfold_M.
  repeat (case_match; simplify_eq/=);
    first [by left
          | right; eexists _, (NvmeNamespace.mk _ _ _);
            split_and!; [reflexivity|eassumption|reflexivity]].
Qed.

(** *** The other handlers and the registry *)

(** What [DeleteNvmeNamespace] does to the server: nothing, or the removal
    of one key of the registry. *)
Lemma Delete_server in_ w :
  server (snd (DeleteNvmeNamespace in_ w)) = server w \/
  exists k, server (snd (DeleteNvmeNamespace in_ w)) = set_Namespaces (delete k) (server w).
Proof.
  unfold DeleteNvmeNamespace. unfold_M.
  repeat (case_match; simplify_eq/=); eauto.
Qed.

Lemma Update_server in_ (w : World E) : server (snd (UpdateNvmeNamespace in_ w)) = server w.
Proof.
  unfold UpdateNvmeNamespace. unfold_M.
  repeat (case_match; simplify_eq/=); eauto.
Qed.

Lemma Get_server in_ w : server (snd (GetNvmeNamespace in_ w)) = server w.
Proof.
  unfold GetNvmeNamespace. unfold_M.
  repeat (case_match; simplify_eq/=); eauto.
Qed.

Lemma Stats_server in_ w : server (snd (NvmeNamespaceStats in_ w)) = server w.
Proof.
  unfold NvmeNamespaceStats. unfold_M.
  repeat (case_match; simplify_eq/=); eauto.
Qed.

Lemma List_Namespaces u in_ w :
  Server.Namespaces (server (snd (ListNvmeNamespaces u in_ w))) = Server.Namespaces (server w).
Proof.
  unfold ListNvmeNamespaces. unfold_M.
  repeat (case_match; simplify_eq/=); eauto.
Qed.

(** *** ListNvmeNamespaces *)

Lemma engine_listing_Some parent (w : World E) l :
  engine_listing parent w = Some l ->
  exists subsys subsysSpec result_ e',
    Server.Subsystems (server w) !! parent = Some subsys /\
    NvmeSubsystem.Spec subsys = Some subsysSpec /\
    Call (controller_nvme_namespace_list
            (NvdaControllerNvmeNamespaceListParams.mk (NvmeSubsystemSpec.Nqn subsysSpec) 0))
         (engine w) = (inr result_, e') /\
    l = NvdaControllerNvmeNamespaceListResult.Namespaces result_.
Proof.
  unfold engine_listing. intros H.
  destruct (Server.Subsystems (server w) !! parent) as [subsys|]; [|done]. simpl in H.
  destruct (NvmeSubsystem.Spec subsys) as [subsysSpec|] eqn:Hs; [|done]. simpl in H.
  destruct (Call _ (engine w)) as [[err|result_] e'] eqn:Hc; [done|]. simpl in H.
  simplify_eq. eexists _, _, _, _. split_and!; first [reflexivity|eassumption].
Qed.

(** A successful call has listed the subsystem, cut the page out of the
    listing, sorted the entries of the page, and stored a token when the
    page was cut short. *)
Lemma List_Return u in_ w resp w' k o :
  ListNvmeNamespaces u in_ w = (Return resp, w') ->
  ExtractPagination (ListNvmeNamespacesRequest.PageSize in_)
    (ListNvmeNamespacesRequest.PageToken in_) (Server.Pagination (server w)) = inr (k, o) ->
  exists l page more,
    engine_listing (ListNvmeNamespacesRequest.Parent in_) w = Some l /\
    LimitPagination l o k = Return (page, more) /\
    ListNvmeNamespacesResponse.NvmeNamespaces resp =
      merge_sort HostNsid_le (map list_entry page) /\
    Server.Pagination (server w') =
      (if more then <[uuid.String u := int_add o k]> (Server.Pagination (server w))
       else Server.Pagination (server w)).
Proof.
  unfold ListNvmeNamespaces, engine_listing. unfold_M. intros Hl Hp.
  destruct (ValidateRequiredFields_List in_); [done|]. simpl in Hl.
  rewrite Hp in Hl. simpl in Hl.
  destruct (Server.Subsystems (server w) !! ListNvmeNamespacesRequest.Parent in_)
    as [subsys|]; [|done]. simpl in *.
  destruct (NvmeSubsystem.Spec subsys) as [subsysSpec|]; [|done]. simpl in *.
  destruct (Call _ (engine w)) as [[err|result_] e']; [done|]. simpl in *.
  destruct (LimitPagination _ o k) as [[page more]| |] eqn:Hlim; [|done..].
  exists (NvdaControllerNvmeNamespaceListResult.Namespaces result_), page, more.
  rewrite sortNvmeNamespaces_entries in Hl.
  destruct more; simplify_eq/=; done.
Qed.

(** The response never carries a token: line 233 leaves [NextPageToken]
    out. *)
Lemma List_NextPageToken u in_ w resp w' :
  ListNvmeNamespaces u in_ w = (Return resp, w') ->
  ListNvmeNamespacesResponse.NextPageToken resp = "".
Proof.
  unfold ListNvmeNamespaces. unfold_M. intros Hl.
  repeat (case_match; simplify_eq/=); done.
Qed.

(** *** The registry along a run *)

Lemma registry_keyed_Namespaces (s s' : Server.t) :
  Server.Namespaces s' = Server.Namespaces s -> registry_keyed s -> registry_keyed s'.
Proof. unfold registry_keyed. by intros ->. Qed.

Lemma exec_Namespaces (op : Op) (w : World E) :
  match op with
  | Create _ _ =>
      Server.Namespaces (server (exec op w)) = Server.Namespaces (server w) \/
      exists resourceID response,
        NvmeNamespace.Name response = ResourceIDToVolumeName resourceID /\
        Server.Namespaces (server w) !! ResourceIDToVolumeName resourceID = None /\
        Server.Namespaces (server (exec op w)) =
          <[ResourceIDToVolumeName resourceID := response]> (Server.Namespaces (server w))
  | Delete _ =>
      Server.Namespaces (server (exec op w)) = Server.Namespaces (server w) \/
      exists k, Server.Namespaces (server (exec op w)) = delete k (Server.Namespaces (server w))
  | _ => Server.Namespaces (server (exec op w)) = Server.Namespaces (server w)
  end.
Proof.
  destruct op as [sysid in_|in_|in_|u in_|in_|in_|subsystems e]; simpl.
  - destruct (Create_server sysid in_ w) as [->|(rid & response & Hn & Hl & ->)];
      [by left|]. right. by exists rid, response.
  - destruct (Delete_server in_ w) as [->|(k & ->)]; [by left|]. right. by exists k.
  - by rewrite Update_server.
  - apply List_Namespaces.
  - by rewrite Get_server.
  - by rewrite Stats_server.
  - done.
Qed.

Lemma registry_keyed_exec (op : Op) (w : World E) :
  registry_keyed (server w) -> registry_keyed (server (exec op w)).
Proof.
  intros Hkeyed. pose proof (exec_Namespaces op w) as Hop.
  destruct op; try (by eapply registry_keyed_Namespaces).
  - destruct Hop as [Hop|(rid & response & Hn & _ & Hop)];
      [by eapply registry_keyed_Namespaces|].
    intros k namespace. rewrite Hop. intros Hl.
    apply lookup_insert_Some in Hl as [[<- <-]|[_ Hl]]; [|by apply Hkeyed].
    split; [done|by exists rid].
  - destruct Hop as [Hop|(k' & Hop)]; [by eapply registry_keyed_Namespaces|].
    intros k namespace. rewrite Hop. intros [_ Hl]%lookup_delete_Some. by apply Hkeyed.
Qed.

Lemma registry_keyed_run (ops : list Op) (w : World E) :
  registry_keyed (server w) -> registry_keyed (server (run ops w)).
Proof.
  revert w. induction ops as [|op ops IH]; intros w Hkeyed; [done|].
  simpl. apply IH. by apply registry_keyed_exec.
Qed.

(** ** The claims *)

(** C1.  Create is idempotent on the resolved name.  For a request that
    resolves to [name]: when the registry holds an entry under [name], the
    call returns that entry and leaves the whole world as it was: the
    registry, the directory and the pagination store, the engine, and the
    log of the commands, so that no command is sent.  Hence, after a
    successful call with a caller-supplied identifier, a second valid call
    with the same identifier returns the same namespace without touching the
    world; when the name was free before the first call, the two calls
    together have sent exactly one command, an attach. *)
Theorem Create_idempotent sysid in_ w name :
  resolved_name sysid in_ = Some name ->
  (forall namespace,
      Server.Namespaces (server w) !! name = Some namespace ->
      CreateNvmeNamespace sysid in_ w = (Return namespace, w)) /\
  (forall r1 w1 sysid' in',
      CreateNvmeNamespaceRequest.NvmeNamespaceId in_ <> "" ->
      CreateNvmeNamespaceRequest.NvmeNamespaceId in' =
        CreateNvmeNamespaceRequest.NvmeNamespaceId in_ ->
      is_Some (resolved_name sysid' in') ->
      CreateNvmeNamespace sysid in_ w = (Return r1, w1) ->
      CreateNvmeNamespace sysid' in' w1 = (Return r1, w1) /\
      (Server.Namespaces (server w) !! name = None ->
       exists params,
         calls w1 = (calls w ++ [sent (controller_nvme_namespace_attach params)])%list)).
Proof.
  intros Hr. split.
  - intros namespace Hl. by apply Create_hit with name.
  - intros r1 w1 sysid' in' Hid Heq Hvalid Hc. split.
    + apply Create_hit with name.
      * by apply resolved_name_user_id with sysid in_.
      * by apply Create_Return_registered with sysid in_ w.
    + intros Hl.
      destruct (Create_miss _ _ _ _ _ _ Hr Hl Hc)
        as [[Hs _]|(response & params & _ & _ & _ & _ & Hcalls)].
      * by destruct Hs.
      * by exists params.
Qed.

(** C9.  Create detects no conflict.  When the registry holds an entry under
    the resolved name, the call returns the stored entry, whatever the
    request carries in its [Spec]: every request that resolves to the same
    name gets the same answer, nothing is rejected, and a request whose
    [Spec] is not the stored one gets back a namespace that disagrees with
    it. *)
Theorem Create_no_conflict_detection sysid in_ w name namespace :
  resolved_name sysid in_ = Some name ->
  Server.Namespaces (server w) !! name = Some namespace ->
  CreateNvmeNamespace sysid in_ w = (Return namespace, w) /\
  (forall sysid' in',
      resolved_name sysid' in' = Some name ->
      CreateNvmeNamespace sysid' in' w = CreateNvmeNamespace sysid in_ w) /\
  (forall ns,
      CreateNvmeNamespaceRequest.NvmeNamespace in_ = Some ns ->
      NvmeNamespace.Spec ns <> NvmeNamespace.Spec namespace ->
      exists r,
        fst (CreateNvmeNamespace sysid in_ w) = Return r /\
        NvmeNamespace.Spec r <> NvmeNamespace.Spec ns).
Proof.
  intros Hr Hl. rewrite (Create_hit _ _ _ _ _ Hr Hl). split_and!.
  - done.
  - intros sysid' in' Hr'. by rewrite (Create_hit _ _ _ _ _ Hr' Hl).
  - intros ns _ Hne. exists namespace. split; [done|]. by intros Heq.
Qed.

(** C6.  Create is atomic.  A call that does not succeed leaves the server
    as it was; a request that does not resolve to a name does not succeed;
    and for a request that resolves to [name], the registry holds an entry
    under [name] after the call exactly when the call succeeded or the entry
    was there before, every other key being left alone. *)
Theorem Create_atomic sysid in_ w r w' :
  CreateNvmeNamespace sysid in_ w = (r, w') ->
  (~ succeeded r -> server w' = server w) /\
  (resolved_name sysid in_ = None -> ~ succeeded r) /\
  (forall name,
      resolved_name sysid in_ = Some name ->
      (is_Some (Server.Namespaces (server w') !! name) <->
       succeeded r \/ is_Some (Server.Namespaces (server w) !! name)) /\
      (forall k, k <> name ->
         Server.Namespaces (server w') !! k = Server.Namespaces (server w) !! k)).
Proof.
  intros Hc.
  destruct (resolved_name sysid in_) as [name|] eqn:Hr.
  - destruct (Server.Namespaces (server w) !! name) as [namespace|] eqn:Hl.
    + rewrite (Create_hit _ _ _ _ _ Hr Hl) in Hc. simplify_eq.
      split_and!; [done|done|]. intros ? [= <-]. rewrite Hl. split; [|done].
      split; [by right|by eauto].
    + destruct (Create_miss _ _ _ _ _ _ Hr Hl Hc)
        as [[Hs Hw]|(response & params & -> & _ & _ & Hw & _)].
      * split_and!; [done|done|]. intros ? [= <-]. rewrite Hw, Hl. split; [|done].
        split; [by intros [? [=]]|]. intros [|[? [=]]]; done.
      * split_and!; [by intros []|done|]. intros ? [= <-]. rewrite Hw. simpl. split.
        -- rewrite lookup_insert_eq. split; [by left|by eauto].
        -- intros k Hk. by rewrite lookup_insert_ne.
  - pose proof (resolved_name_None_Create sysid in_ w Hr) as [Hs Hw].
    rewrite Hc in Hs, Hw. simpl in *. subst. done.
Qed.

(** C3.  Delete of a name that is not registered, for a request that passes
    the validations of lines 107-115: with [AllowMissing] the call succeeds,
    without it the call fails with [NotFound]; either way the world is left
    as it was, so no command is sent to the engine. *)
Theorem Delete_missing in_ w :
  ValidateRequiredFields_Delete in_ = None ->
  resourcename_Validate (DeleteNvmeNamespaceRequest.Name in_) = None ->
  Server.Namespaces (server w) !! DeleteNvmeNamespaceRequest.Name in_ = None ->
  DeleteNvmeNamespace in_ w =
    (if DeleteNvmeNamespaceRequest.AllowMissing in_
     then Return Empty.mk
     else Fail (status_Error NotFound
                  ("unable to find key " +:+ DeleteNvmeNamespaceRequest.Name in_)),
     w).
Proof.
  intros Hv Hn Hl. unfold DeleteNvmeNamespace. unfold_M.
  rewrite Hv, Hn. simpl. rewrite Hl.
  by destruct (DeleteNvmeNamespaceRequest.AllowMissing in_).
Qed.



(** C5 (amended).  The entries of a successful List are sorted by ascending
    [HostNsid] and are the entries of the window of the engine's listing.
    The window is cut in the engine's order, before the sort: two calls
    whose windows hold the same identifiers, in any order, return the same
    entries. *)
Theorem List_sorted u1 in1 w1 resp1 w1' k1 o1 l1 u2 in2 w2 resp2 w2' k2 o2 l2 :
  ListNvmeNamespaces u1 in1 w1 = (Return resp1, w1') ->
  ExtractPagination (ListNvmeNamespacesRequest.PageSize in1)
    (ListNvmeNamespacesRequest.PageToken in1) (Server.Pagination (server w1)) = inr (k1, o1) ->
  engine_listing (ListNvmeNamespacesRequest.Parent in1) w1 = Some l1 ->
  is_int k1 -> is_int o1 ->
  ListNvmeNamespaces u2 in2 w2 = (Return resp2, w2') ->
  ExtractPagination (ListNvmeNamespacesRequest.PageSize in2)
    (ListNvmeNamespacesRequest.PageToken in2) (Server.Pagination (server w2)) = inr (k2, o2) ->
  engine_listing (ListNvmeNamespacesRequest.Parent in2) w2 = Some l2 ->
  is_int k2 -> is_int o2 ->
  StronglySorted HostNsid_le (ListNvmeNamespacesResponse.NvmeNamespaces resp1) /\
  Forall (fun n => has_Spec n = true) (ListNvmeNamespacesResponse.NvmeNamespaces resp1) /\
  ListNvmeNamespacesResponse.NvmeNamespaces resp1 ≡ₚ map list_entry (window l1 o1 k1) /\
  (map NvdaNamespace.Nsid (window l1 o1 k1) ≡ₚ map NvdaNamespace.Nsid (window l2 o2 k2) ->
   ListNvmeNamespacesResponse.NvmeNamespaces resp1 =
     ListNvmeNamespacesResponse.NvmeNamespaces resp2).
Proof.
  intros Hl1 Hp1 He1 Hk1 Ho1 Hl2 Hp2 He2 Hk2 Ho2.
  destruct (List_Return _ _ _ _ _ _ _ Hl1 Hp1) as (? & page1 & more1 & ? & Hlim1 & Hr1 & _).
  destruct (List_Return _ _ _ _ _ _ _ Hl2 Hp2) as (? & page2 & more2 & ? & Hlim2 & Hr2 & _).
  simplify_eq.
  apply LimitPagination_Return in Hlim1 as (_ & _ & -> & _); [|done..].
  apply LimitPagination_Return in Hlim2 as (_ & _ & -> & _); [|done..].
  rewrite Hr1, Hr2. split_and!.
  - apply StronglySorted_merge_sort; apply _.
  - rewrite merge_sort_Permutation. apply Forall_forall.
    by intros n (r & -> & _)%list_elem_of_fmap.
  - apply merge_sort_Permutation.
  - intros Hperm.
    apply sorted_by_HostNsid_unique with (window l1 o1 k1).
    + apply merge_sort_Permutation.
    + rewrite !merge_sort_Permutation.
      assert (forall l, map list_entry l =
                map (fun z => NvmeNamespace.mk "" (Some (only_HostNsid (to_int32 z))) None)
                    (map NvdaNamespace.Nsid l)) as Hmap.
      { intros l. by rewrite map_map. }
      rewrite !Hmap. by rewrite Hperm.
    + apply Sorted_merge_sort; apply _.
    + apply Sorted_merge_sort; apply _.
Qed.


(** C8 (amended).  Only Stats is independent of the directory of
    subsystems: its outcome is the same over any directory.  Delete and Get
    resolve the subsystem of the stored entry again at every call: when it
    is no longer in the directory, Delete fails with a plain error and Get
    with [NotFound], the world being left as it was. *)
Theorem subsystem_resolved_again in_d in_g in_s (w : World E) :
  (forall subsystems,
      NvmeNamespaceStats in_s (with_Subsystems subsystems w) =
        (fst (NvmeNamespaceStats in_s w),
         with_Subsystems subsystems (snd (NvmeNamespaceStats in_s w)))) /\
  (forall namespace spec k,
      ValidateRequiredFields_Delete in_d = None ->
      resourcename_Validate (DeleteNvmeNamespaceRequest.Name in_d) = None ->
      Server.Namespaces (server w) !! DeleteNvmeNamespaceRequest.Name in_d = Some namespace ->
      NvmeNamespace.Spec namespace = Some spec ->
      NvmeNamespaceSpec.SubsystemId spec = Some k ->
      Server.Subsystems (server w) !! ObjectKey.Value k = None ->
      DeleteNvmeNamespace in_d w =
        (Fail (fmt_Errorf ("unable to find subsystem " +:+ ObjectKey.Value k)), w)) /\
  (forall namespace spec k,
      ValidateRequiredFields_Get in_g = None ->
      resourcename_Validate (GetNvmeNamespaceRequest.Name in_g) = None ->
      Server.Namespaces (server w) !! GetNvmeNamespaceRequest.Name in_g = Some namespace ->
      NvmeNamespace.Spec namespace = Some spec ->
      NvmeNamespaceSpec.SubsystemId spec = Some k ->
      Server.Subsystems (server w) !! ObjectKey.Value k = None ->
      GetNvmeNamespace in_g w =
        (Fail (status_Error NotFound ("unable to find key " +:+ ObjectKey.Value k)), w)).
Proof.
  split_and!.
  - intros subsystems. unfold NvmeNamespaceStats, with_Subsystems. unfold_M.
    destruct w as [[namespaces subsystems0 pagination] e cs]. simpl.
    repeat (case_match; simplify_eq/=); done.
  - intros namespace spec k Hv Hn Hl Hspec Hk Hs.
    unfold DeleteNvmeNamespace. unfold_M.
    rewrite Hv, Hn. simpl. rewrite Hl, Hspec. simpl. rewrite Hk. simpl. by rewrite Hs.
  - intros namespace spec k Hv Hn Hl Hspec Hk Hs.
    unfold GetNvmeNamespace. unfold_M.
    rewrite Hv, Hn. simpl. rewrite Hl, Hspec. simpl. rewrite Hk. simpl. by rewrite Hs.
Qed.

(** C10.  Along every run of operations that starts from an empty registry,
    every key of the registry is the [Name] of its entry and has the form
    that [ResourceIDToVolumeName] gives to an identifier.  An operation
    after which a key is registered that was not is a Create; an operation
    after which a key is no longer registered is a Delete; and no operation
    changes the entry of a key that stays. *)
Theorem registry_keyed_reachable (w0 : World E) (ops : list Op) :
  Server.Namespaces (server w0) = ∅ ->
  registry_keyed (server (run ops w0)) /\
  (forall op k,
      Server.Namespaces (server (run ops w0)) !! k = None ->
      is_Some (Server.Namespaces (server (exec op (run ops w0))) !! k) ->
      exists sysid in_, op = Create sysid in_) /\
  (forall op k,
      is_Some (Server.Namespaces (server (run ops w0)) !! k) ->
      Server.Namespaces (server (exec op (run ops w0))) !! k = None ->
      exists in_, op = Delete in_) /\
  (forall op k namespace namespace',
      Server.Namespaces (server (run ops w0)) !! k = Some namespace ->
      Server.Namespaces (server (exec op (run ops w0))) !! k = Some namespace' ->
      namespace' = namespace).
Proof.
  intros Hempty. split_and!.
  - apply registry_keyed_run. intros k namespace. rewrite Hempty. by rewrite lookup_empty.
  - intros op k Hnone Hsome. pose proof (exec_Namespaces op (run ops w0)) as Hop.
    destruct op; try (rewrite Hop, Hnone in Hsome; by destruct Hsome); [by eauto|].
    destruct Hop as [Hop|(k' & Hop)]; rewrite Hop in Hsome.
    + rewrite Hnone in Hsome. by destruct Hsome.
    + destruct Hsome as [? [_ Hl]%lookup_delete_Some]. congruence.
  - intros op k Hsome Hnone. pose proof (exec_Namespaces op (run ops w0)) as Hop.
    destruct op; try (rewrite Hop in Hnone; rewrite Hnone in Hsome; by destruct Hsome);
      [|by eauto].
    destruct Hop as [Hop|(rid & response & _ & Hl & Hop)]; rewrite Hop in Hnone.
    + rewrite Hnone in Hsome. by destruct Hsome.
    + apply lookup_insert_None in Hnone as [Hnone _]. rewrite Hnone in Hsome.
      by destruct Hsome.
  - intros op k namespace namespace' Hl Hl'.
    pose proof (exec_Namespaces op (run ops w0)) as Hop.
    destruct op; try (rewrite Hop in Hl'; congruence).
    + destruct Hop as [Hop|(rid & response & _ & Hnone & Hop)]; rewrite Hop in Hl';
        [congruence|].
      apply lookup_insert_Some in Hl' as [[<- _]|[_ Hl']]; congruence.
    + destruct Hop as [Hop|(k' & Hop)]; rewrite Hop in Hl'; [congruence|].
      apply lookup_delete_Some in Hl' as [_ Hl']. congruence.
Qed.

End Properties.

(** * Examples

    The properties at concrete requests, over the scripted engine and the
    accepting collaborators of [Sample]. *)

Section Examples.

Import Sample.

#[local] Existing Instance scripted.
#[local] Existing Instance accepting.

Lemma Create_idempotent_witness :
  let w0 := world1 ∅ [] in
  let w1 := mkWorld (Server.mk {[ name1 := stored1 "volumes/v1" 5 ]} subsystems1 ∅)
                    (engine1 []) [attach1 "volumes/v1" 5] in
  resolved_name "sys" (create1 "volumes/v1" 5) = Some name1 /\
  CreateNvmeNamespace "sys" (create1 "volumes/v1" 5) w0 =
    (Return (stored1 "volumes/v1" 5), w1) /\
  CreateNvmeNamespace "sys" (create1 "volumes/v1" 5) w1 =
    (Return (stored1 "volumes/v1" 5), w1) /\
  CreateNvmeNamespace "other" (create1 "volumes/v2" 6) w1 =
    (Return (stored1 "volumes/v1" 5), w1) /\
  exists params, calls w1 = [sent (controller_nvme_namespace_attach params)].
Proof.
  intros w0 w1.
  assert (resolved_name "sys" (create1 "volumes/v1" 5) = Some name1) as Hr
    by (vm_compute; reflexivity).
  assert (CreateNvmeNamespace "sys" (create1 "volumes/v1" 5) w0 =
            (Return (stored1 "volumes/v1" 5), w1)) as Hc by (vm_compute; reflexivity).
  destruct (Create_idempotent "sys" (create1 "volumes/v1" 5) w0 name1 Hr) as [_ Htwice].
  destruct (Create_idempotent "sys" (create1 "volumes/v1" 5) w1 name1 Hr) as [Hhit _].
  destruct (Htwice (stored1 "volumes/v1" 5) w1 "other" (create1 "volumes/v2" 6))
    as [Hsecond Hcalls];
    [by vm_compute|by vm_compute|vm_compute; by eexists|exact Hc|].
  split_and!; [exact Hr|exact Hc| |exact Hsecond|].
  - apply Hhit. vm_compute; reflexivity.
  - apply Hcalls. vm_compute; reflexivity.
Defined.

Lemma Create_no_conflict_detection_witness :
  let w := world1 {[ name1 := stored1 "volumes/v1" 5 ]} [5] in
  NvmeNamespace.Spec (stored1 "volumes/v1" 5) <> Some (spec1 "volumes/v2" 6) /\
  CreateNvmeNamespace "sys" (create1 "volumes/v2" 6) w = (Return (stored1 "volumes/v1" 5), w).
Proof.
  intros w. split; [by vm_compute|].
  apply (Create_no_conflict_detection "sys" (create1 "volumes/v2" 6) w name1);
    vm_compute; reflexivity.
Defined.

Lemma Create_atomic_witness :
  let w := mkWorld (Server.mk ∅ subsystems1 ∅) (rejecting []) [] in
  let w' := mkWorld (Server.mk ∅ subsystems1 ∅) (rejecting []) [attach1 "volumes/v1" 5] in
  CreateNvmeNamespace "sys" (create1 "volumes/v1" 5) w =
    (Fail (status_Error InvalidArgument ("Could not create NS: " +:+ name1)), w') /\
  server w' = server w /\
  ~ is_Some (Server.Namespaces (server w') !! name1).
Proof.
  intros w w'.
  assert (CreateNvmeNamespace "sys" (create1 "volumes/v1" 5) w =
    (Fail (status_Error InvalidArgument ("Could not create NS: " +:+ name1)), w')) as Hc
    by (vm_compute; reflexivity).
  destruct (Create_atomic "sys" (create1 "volumes/v1" 5) w _ _ Hc) as (Hfail & _ & Hiff).
  split_and!; [exact Hc|apply Hfail; by intros []|].
  destruct (Hiff name1) as [Hiff' _]; [vm_compute; reflexivity|].
  intros Hsome. apply Hiff' in Hsome as [[]|Hsome].
  vm_compute in Hsome. by destruct Hsome.
Defined.

Lemma Delete_missing_witness :
  let w := world1 ∅ [] in
  DeleteNvmeNamespace (DeleteNvmeNamespaceRequest.mk name1 true) w = (Return Empty.mk, w) /\
  DeleteNvmeNamespace (DeleteNvmeNamespaceRequest.mk name1 false) w =
    (Fail (status_Error NotFound ("unable to find key " +:+ name1)), w).
Proof.
  intros w. split.
  - apply (Delete_missing (DeleteNvmeNamespaceRequest.mk name1 true) w); vm_compute; reflexivity.
  - apply (Delete_missing (DeleteNvmeNamespaceRequest.mk name1 false) w); vm_compute; reflexivity.
Defined.




(** C5 as stated fails: the engine lists the same three identifiers in two
    orders, and the page of two entries differs. *)
Lemma List_order_counterexample :
  ~ (forall ids ids' : list Z,
        ids ≡ₚ ids' ->
        fst (ListNvmeNamespaces u1 page_of_two (world1 ∅ ids)) =
        fst (ListNvmeNamespaces u1 page_of_two (world1 ∅ ids'))).
Proof.
  intros Hsame.
  assert ([3; 1; 2] ≡ₚ [1; 2; 3]) as Hperm.
  { etrans; [apply perm_swap|]. apply perm_skip, perm_swap. }
  specialize (Hsame [3; 1; 2] [1; 2; 3] Hperm).
  vm_compute in Hsame. discriminate Hsame.
Qed.

Lemma List_sorted_witness :
  let resp := ListNvmeNamespacesResponse.mk [entry 1; entry 3] "" in
  fst (ListNvmeNamespaces u1 page_of_two (world1 ∅ [3; 1; 2])) = Return resp /\
  fst (ListNvmeNamespaces u1 page_of_two (world1 ∅ [1; 3; 2])) = Return resp /\
  StronglySorted HostNsid_le [entry 1; entry 3] /\
  [entry 1; entry 3] ≡ₚ map list_entry (window (map NvdaNamespace.mk [3; 1; 2]) 0 2).
Proof.
  intros resp.
  pose proof (List_sorted
                u1 page_of_two (world1 ∅ [3; 1; 2]) resp
                (snd (ListNvmeNamespaces u1 page_of_two (world1 ∅ [3; 1; 2]))) 2 0
                (map NvdaNamespace.mk [3; 1; 2])
                u1 page_of_two (world1 ∅ [1; 3; 2]) resp
                (snd (ListNvmeNamespaces u1 page_of_two (world1 ∅ [1; 3; 2]))) 2 0
                (map NvdaNamespace.mk [1; 3; 2])) as Hsorted.
  destruct Hsorted as (Hs & _ & Hp & _);
    [vm_compute; reflexivity|vm_compute; reflexivity|vm_compute; reflexivity
    |by vm_compute|by vm_compute
    |vm_compute; reflexivity|vm_compute; reflexivity|vm_compute; reflexivity
    |by vm_compute|by vm_compute|].
  split_and!; [vm_compute; reflexivity|vm_compute; reflexivity|exact Hs|exact Hp].
Defined.



Lemma subsystem_resolved_again_witness :
  let w := mkWorld (Server.mk {[ name1 := stored1 "v1" 5 ]} ∅ ∅) (engine1 [5]) [] in
  DeleteNvmeNamespace (DeleteNvmeNamespaceRequest.mk name1 false) w =
    (Fail (fmt_Errorf "unable to find subsystem subsystems/nqn-1"), w) /\
  GetNvmeNamespace (GetNvmeNamespaceRequest.mk name1) w =
    (Fail (status_Error NotFound "unable to find key subsystems/nqn-1"), w) /\
  fst (NvmeNamespaceStats (NvmeNamespaceStatsRequest.mk (key name1))
         (with_Subsystems subsystems1 w)) =
  fst (NvmeNamespaceStats (NvmeNamespaceStatsRequest.mk (key name1)) w).
Proof.
  intros w.
  destruct (subsystem_resolved_again
              (DeleteNvmeNamespaceRequest.mk name1 false)
              (GetNvmeNamespaceRequest.mk name1)
              (NvmeNamespaceStatsRequest.mk (key name1)) w) as (Hstats & Hdelete & Hget).
  split_and!.
  - exact (Hdelete (stored1 "v1" 5) (spec1 "v1" 5) (ObjectKey.mk "subsystems/nqn-1")
             eq_refl eq_refl eq_refl eq_refl eq_refl eq_refl).
  - exact (Hget (stored1 "v1" 5) (spec1 "v1" 5) (ObjectKey.mk "subsystems/nqn-1")
             eq_refl eq_refl eq_refl eq_refl eq_refl eq_refl).
  - by rewrite (Hstats subsystems1).
Defined.

(** C8 as stated fails: two worlds that differ only in the directory of
    subsystems, the namespace being registered in both, and neither Delete
    nor Get ends the same way in the two. *)
Lemma directory_counterexample :
  let w := world1 {[ name1 := stored1 "v1" 5 ]} [5] in
  let delete1 := DeleteNvmeNamespaceRequest.mk name1 false in
  let get1 := GetNvmeNamespaceRequest.mk name1 in
  Server.Namespaces (server w) !! name1 = Some (stored1 "v1" 5) /\
  Server.Namespaces (server (with_Subsystems ∅ w)) !! name1 = Some (stored1 "v1" 5) /\
  fst (DeleteNvmeNamespace delete1 (with_Subsystems ∅ w)) <>
    fst (DeleteNvmeNamespace delete1 w) /\
  fst (GetNvmeNamespace get1 (with_Subsystems ∅ w)) <> fst (GetNvmeNamespace get1 w).
Proof.
  intros w delete1 get1. split_and!; vm_compute; first [reflexivity|discriminate].
Qed.

Lemma registry_keyed_reachable_witness :
  let ops := [Create "sys" (create1 "volumes/v1" 5);
              Get (GetNvmeNamespaceRequest.mk name1);
              Create "sys" (create1 "volumes/v2" 6)] in
  Server.Namespaces (server (run ops (world1 ∅ [5]))) = {[ name1 := stored1 "volumes/v1" 5 ]} /\
  registry_keyed (server (run ops (world1 ∅ [5]))).
Proof.
  intros ops. split; [vm_compute; reflexivity|].
  apply (registry_keyed_reachable (world1 ∅ [5]) ops). vm_compute; reflexivity.
Defined.

End Examples.

(** * Further properties of the handlers *)

(** ** Helpers *)

(** [LimitPagination] returns the window when the offset lies within the
    result, the size is not negative and their sum is a Go [int]; otherwise
    the slice expression panics. *)
Lemma LimitPagination_cases {T} (l : list T) o k :
  is_int o -> is_int k ->
  LimitPagination l o k =
    if decide (0 <= o <= Z.of_nat (length l) /\ 0 <= k /\ o + k < 2 ^ 63)
    then Return (window l o k, bool_decide (o + k < Z.of_nat (length l)))
    else Panic.
Proof.
  intros Ho Hk.
  pose proof (int_add_cases o k Ho Hk) as Hcases.
  pose proof (int_add_range o k) as Hrange.
  unfold LimitPagination, slice. unfold is_int in *.
  change (2 ^ 63) with 9223372036854775808 in *.
  change (2 ^ 64) with 18446744073709551616 in *.
  destruct (decide (0 <= o <= _ /\ 0 <= k /\ o + k < _)) as [(Hor & Hk0 & Hsum)|Hout].
  - assert (int_add o k = o + k) as -> by lia.
    destruct (bool_decide (o + k < Z.of_nat (length l))) eqn:Hmore.
    + apply bool_decide_eq_true in Hmore. rewrite decide_True by lia.
      unfold window. do 4 f_equal. lia.
    + apply bool_decide_eq_false in Hmore. rewrite decide_True by lia.
      unfold window. rewrite !take_ge; [done|..]; rewrite length_drop; lia.
  - destruct (bool_decide (int_add o k < Z.of_nat (length l))) eqn:Hmore.
    + apply bool_decide_eq_true in Hmore. rewrite decide_False; [done|lia].
    + apply bool_decide_eq_false in Hmore. rewrite decide_False; [done|lia].
Qed.

Lemma window_consecutive {T} (l : list T) o k :
  0 <= o -> 0 <= k ->
  (window l o k ++ window l (o + k) k)%list = window l o (k + k).
Proof.
  intros Ho Hk. unfold window.
  rewrite !Z2Nat.inj_add by lia.
  rewrite <- drop_drop. apply take_take_drop.
Qed.

Lemma scan_Controllers_app volume cs1 cs2 :
  scan_Controllers volume cs1 = None ->
  scan_Controllers volume (cs1 ++ cs2) = scan_Controllers volume cs2.
Proof.
  induction cs1 as [|c cs1 IH]; [done|]. simpl.
  destruct (scan_Bdevs volume _); [done|]. apply IH.
Qed.

Lemma scan_Bdevs_first volume b1 r b2 :
  (forall r', r' ∈ b1 -> NvdaBdevStats.BdevName r' <> volume) ->
  NvdaBdevStats.BdevName r = volume ->
  scan_Bdevs volume (b1 ++ r :: b2) = Some r.
Proof.
  intros Hb1 Hr. unfold scan_Bdevs.
  induction b1 as [|r' b1 IH]; simpl.
  - by rewrite bool_decide_eq_true_2.
  - rewrite bool_decide_eq_false_2 by (apply Hb1; left).
    apply IH. intros r'' Hin. apply Hb1. by right.
Qed.

Section MoreProperties.

Context {E : Type} {rpc : JSONRPC E} {ext : Externals}.

(** Lines 67-100 for a request that resolves to a free name. *)
Lemma Create_fresh sysid in_ (w : World E) name ns spec k :
  resolved_name sysid in_ = Some name ->
  CreateNvmeNamespaceRequest.NvmeNamespace in_ = Some ns ->
  NvmeNamespace.Spec ns = Some spec ->
  NvmeNamespaceSpec.SubsystemId spec = Some k ->
  Server.Namespaces (server w) !! name = None ->
  CreateNvmeNamespace sysid in_ w =
    match Server.Subsystems (server w) !! ObjectKey.Value k with
    | None =>
        (Fail (status_Error NotFound ("unable to find key " +:+ ObjectKey.Value k)), w)
    | Some subsys =>
        match NvmeNamespaceSpec.VolumeId spec, NvmeSubsystem.Spec subsys,
              NvmeNamespaceSpec.Uuid spec with
        | Some volumeId, Some subsysSpec, Some uuid =>
            let params :=
              NvdaControllerNvmeNamespaceAttachParams.mk
                "spdk" (ObjectKey.Value volumeId) (NvmeNamespaceSpec.HostNsid spec)
                (NvmeSubsystemSpec.Nqn subsysSpec) 0 (Uuid.Value uuid)
                (NvmeNamespaceSpec.Nguid spec) (FormatInt10 (NvmeNamespaceSpec.Eui64 spec)) in
            let reply := Call (controller_nvme_namespace_attach params) (engine w) in
            let response := NvmeNamespace.mk name (Some spec) (Some attached) in
            (match fst reply with
             | inl err => Fail err
             | inr false =>
                 Fail (status_Error InvalidArgument ("Could not create NS: " +:+ name))
             | inr true => Return response
             end,
             mkWorld (match fst reply with
                      | inr true => set_Namespaces (insert name response) (server w)
                      | _ => server w
                      end)
                     (snd reply)
                     (calls w ++ [sent (controller_nvme_namespace_attach params)]))
        | _, _, _ => (Panic, w)
        end
    end.
Proof.
  intros Hr Hns Hspec Hk Hl.
  unfold resolved_name in Hr.
  destruct (ValidateRequiredFields_Create in_) eqn:Hv; [done|].
  rewrite Hns in Hr. simpl in Hr. rewrite Hspec in Hr. simpl in Hr.
  rewrite Hk in Hr. simpl in Hr.
  unfold CreateNvmeNamespace. unfold_M.
  rewrite Hv, Hns. simpl. rewrite Hspec. simpl. rewrite Hk. simpl.
  destruct (decide (ObjectKey.Value k = "")); [done|].
  assert (forall rid, name = ResourceIDToVolumeName rid ->
            Server.Namespaces (server w) !! ResourceIDToVolumeName rid = None) as Hl'
    by (by intros rid <-).
  destruct (decide (CreateNvmeNamespaceRequest.NvmeNamespaceId in_ = "")).
  - injection Hr as Hr. simpl. rewrite (Hl' _ (eq_sym Hr)), Hr.
    destruct (Server.Subsystems (server w) !! _) as [subsys|]; [|done].
    destruct (NvmeNamespaceSpec.VolumeId spec); [|done]. simpl.
    destruct (NvmeSubsystem.Spec subsys); [|done]. simpl.
    destruct (NvmeNamespaceSpec.Uuid spec); [|done]. simpl.
    by destruct (Call _ (engine w)) as [[err|[]] e'].
  - destruct (resourceid_ValidateUserSettable _); [done|].
    injection Hr as Hr. simpl. rewrite (Hl' _ (eq_sym Hr)), Hr.
    destruct (Server.Subsystems (server w) !! _) as [subsys|]; [|done].
    destruct (NvmeNamespaceSpec.VolumeId spec); [|done]. simpl.
    destruct (NvmeSubsystem.Spec subsys); [|done]. simpl.
    destruct (NvmeNamespaceSpec.Uuid spec); [|done]. simpl.
    by destruct (Call _ (engine w)) as [[err|[]] e'].
Qed.


(** Lines 202-233 once the page is resolved and the subsystem found. *)
Lemma List_listed u in_ (w : World E) k o subsys subsysSpec :
  ValidateRequiredFields_List in_ = None ->
  ExtractPagination (ListNvmeNamespacesRequest.PageSize in_)
    (ListNvmeNamespacesRequest.PageToken in_) (Server.Pagination (server w)) = inr (k, o) ->
  Server.Subsystems (server w) !! ListNvmeNamespacesRequest.Parent in_ = Some subsys ->
  NvmeSubsystem.Spec subsys = Some subsysSpec ->
  let command := controller_nvme_namespace_list
                   (NvdaControllerNvmeNamespaceListParams.mk
                      (NvmeSubsystemSpec.Nqn subsysSpec) 0) in
  let reply := Call command (engine w) in
  let listed s := mkWorld s (snd reply) (calls w ++ [sent command]) in
  ListNvmeNamespaces u in_ w =
    match fst reply with
    | inl err => (Fail err, listed (server w))
    | inr result_ =>
        match LimitPagination
                (NvdaControllerNvmeNamespaceListResult.Namespaces result_) o k with
        | Return (page, more) =>
            (Return (ListNvmeNamespacesResponse.mk
                       (merge_sort HostNsid_le (map list_entry page)) ""),
             listed (if more : bool
                     then set_Pagination (insert (uuid.String u) (int_add o k)) (server w)
                     else server w))
        | Fail e => (Fail e, listed (server w))
        | Panic => (Panic, listed (server w))
        end
    end.
Proof.
  intros Hv Hp Hs Hss command reply listed. subst listed reply command.
  unfold ListNvmeNamespaces. unfold_M. rewrite Hv. simpl. rewrite Hp. simpl.
  rewrite Hs, Hss. simpl.
  destruct (Call _ (engine w)) as [[err|result_] e']; [done|]. simpl.
  destruct (LimitPagination _ o k) as [[page []]|e|]; [| |done..];
    simpl; by rewrite sortNvmeNamespaces_entries.
Qed.

Lemma List_server u in_ (w : World E) :
  server (snd (ListNvmeNamespaces u in_ w)) = server w \/
  exists offset,
    server (snd (ListNvmeNamespaces u in_ w)) =
      set_Pagination (insert (uuid.String u) offset) (server w).
Proof.
  unfold ListNvmeNamespaces. unfold_M.
  repeat (case_match; simplify_eq/=); eauto.
Qed.


Lemma entry_well_formed_Create sysid in_ (w : World E) :
  registry_well_formed (server w) ->
  registry_well_formed (server (snd (CreateNvmeNamespace sysid in_ w))).
Proof.
  intros Hwf. unfold CreateNvmeNamespace. unfold_M.
  repeat (case_match; simplify_eq/=); try exact Hwf.
  all: intros k' namespace Hl; simpl in Hl.
  all: apply lookup_insert_Some in Hl as [[<- <-]|[_ Hl]]; [|by eapply Hwf].
  all: split; [done|]; eexists _, _, _, _; simpl; split_and!; done.
Qed.

Lemma registry_well_formed_Namespaces (s s' : Server.t) :
  Server.Namespaces s' = Server.Namespaces s ->
  registry_well_formed s -> registry_well_formed s'.
Proof. unfold registry_well_formed. by intros ->. Qed.

Lemma registry_well_formed_exec (op : Op) (w : World E) :
  registry_well_formed (server w) -> registry_well_formed (server (exec op w)).
Proof.
  intros Hwf. pose proof (exec_Namespaces op w) as Hop.
  destruct op; try (by eapply registry_well_formed_Namespaces).
  - by apply entry_well_formed_Create.
  - destruct Hop as [Hop|(k' & Hop)]; [by eapply registry_well_formed_Namespaces|].
    intros k namespace. rewrite Hop. intros [_ Hl]%lookup_delete_Some. by eapply Hwf.
Qed.

(** ** UpdateNvmeNamespace *)

(** X1.  Update never applies anything: no call succeeds, the world is left
    as it was and no command is sent.  For a request that passes the
    validations: an unknown name fails with [NotFound], with or without
    [AllowMissing]; a registered name fails with the error of the mask
    validation or, when the mask is accepted, with [Unimplemented]. *)
Theorem Update_never_applies in_ (w : World E) :
  ~ succeeded (fst (UpdateNvmeNamespace in_ w)) /\
  snd (UpdateNvmeNamespace in_ w) = w /\
  (forall ns,
      ValidateRequiredFields_Update in_ = None ->
      UpdateNvmeNamespaceRequest.NvmeNamespace in_ = Some ns ->
      resourcename_Validate (NvmeNamespace.Name ns) = None ->
      fst (UpdateNvmeNamespace in_ w) =
        match Server.Namespaces (server w) !! NvmeNamespace.Name ns with
        | None => Fail (status_Error NotFound ("unable to find key " +:+ NvmeNamespace.Name ns))
        | Some _ =>
            match fieldmask_Validate (UpdateNvmeNamespaceRequest.UpdateMask in_) ns with
            | Some err => Fail err
            | None => Fail (status_Error Unimplemented
                              "UpdateNvmeNamespace method is not implemented")
            end
        end).
Proof.
  split_and!.
  - unfold UpdateNvmeNamespace. unfold_M.
    repeat (case_match; simplify_eq/=); by intros [].
  - unfold UpdateNvmeNamespace. unfold_M.
    repeat (case_match; simplify_eq/=); done.
  - intros ns Hv Hns Hn. unfold UpdateNvmeNamespace. unfold_M.
    rewrite Hv, Hns. simpl. rewrite Hn. simpl.
    destruct (Server.Namespaces (server w) !! _); [|done].
    by destruct (fieldmask_Validate _ _).
Qed.

(** ** CreateNvmeNamespace *)

(** X2.  Create of a free name under a known subsystem sends one attach
    command: the bdev is the volume reference as it is, the nsid the host
    identifier, the subnqn the one of the subsystem, the controller 0, the
    eui64 in decimal.  An error of the engine is returned as it is, a refusal
    is [InvalidArgument]; on acceptance the request's [Spec], named by the
    resolved name and marked attached, is stored and returned. *)
Theorem Create_attach sysid in_ w name ns spec k subsys subsysSpec volumeId uuid :
  resolved_name sysid in_ = Some name ->
  CreateNvmeNamespaceRequest.NvmeNamespace in_ = Some ns ->
  NvmeNamespace.Spec ns = Some spec ->
  NvmeNamespaceSpec.SubsystemId spec = Some k ->
  Server.Namespaces (server w) !! name = None ->
  Server.Subsystems (server w) !! ObjectKey.Value k = Some subsys ->
  NvmeSubsystem.Spec subsys = Some subsysSpec ->
  NvmeNamespaceSpec.VolumeId spec = Some volumeId ->
  NvmeNamespaceSpec.Uuid spec = Some uuid ->
  let params :=
    NvdaControllerNvmeNamespaceAttachParams.mk
      "spdk" (ObjectKey.Value volumeId) (NvmeNamespaceSpec.HostNsid spec)
      (NvmeSubsystemSpec.Nqn subsysSpec) 0 (Uuid.Value uuid)
      (NvmeNamespaceSpec.Nguid spec) (FormatInt10 (NvmeNamespaceSpec.Eui64 spec)) in
  let reply := Call (controller_nvme_namespace_attach params) (engine w) in
  let response := NvmeNamespace.mk name (Some spec) (Some attached) in
  CreateNvmeNamespace sysid in_ w =
    (match fst reply with
     | inl err => Fail err
     | inr false => Fail (status_Error InvalidArgument ("Could not create NS: " +:+ name))
     | inr true => Return response
     end,
     mkWorld (match fst reply with
              | inr true => set_Namespaces (insert name response) (server w)
              | _ => server w
              end)
             (snd reply)
             (calls w ++ [sent (controller_nvme_namespace_attach params)])).
Proof.
  intros Hr Hns Hspec Hk Hl Hs Hss Hvol Hu params reply response.
  rewrite (Create_fresh _ _ _ _ _ _ _ Hr Hns Hspec Hk Hl). by rewrite Hs, Hvol, Hss, Hu.
Qed.

(** X3.  Create reads neither the [Name] nor the [Status] that the request
    gives to its namespace: two requests that differ only there, and that
    both pass the check of the required fields, have the same outcome. *)
Theorem Create_ignores_Name_Status sysid in1 in2 (w : World E) :
  ValidateRequiredFields_Create in1 = None ->
  ValidateRequiredFields_Create in2 = None ->
  without_Name_Status in1 = without_Name_Status in2 ->
  CreateNvmeNamespace sysid in1 w = CreateNvmeNamespace sysid in2 w.
Proof.
  intros Hv1 Hv2 Heq. unfold CreateNvmeNamespace. rewrite Hv1, Hv2.
  destruct in1 as [[[n1 s1 st1]|] id1], in2 as [[[n2 s2 st2]|] id2];
    unfold without_Name_Status in Heq; simplify_eq/=; done.
Qed.

(** X4.  A request without [Spec], without subsystem reference or with an
    empty one fails with [InvalidArgument] and leaves the world as it was,
    before the caller's identifier is looked at. *)
Theorem Create_invalid_subsystem sysid in_ (w : World E) ns :
  ValidateRequiredFields_Create in_ = None ->
  CreateNvmeNamespaceRequest.NvmeNamespace in_ = Some ns ->
  match NvmeNamespace.Spec ns with
  | None => True
  | Some spec =>
      match NvmeNamespaceSpec.SubsystemId spec with
      | None => True
      | Some k => ObjectKey.Value k = ""
      end
  end ->
  CreateNvmeNamespace sysid in_ w =
    (Fail (status_Error InvalidArgument "invalid input subsystem parameters"), w).
Proof.
  intros Hv Hns Hbad. unfold CreateNvmeNamespace. unfold_M. rewrite Hv, Hns. simpl.
  destruct (NvmeNamespace.Spec ns) as [spec|]; [|done]. simpl.
  destruct (NvmeNamespaceSpec.SubsystemId spec) as [k|]; [|done]. simpl.
  by rewrite decide_True.
Qed.

(** X5.  Create of a free name under a subsystem that the directory does not
    know fails with [NotFound]; nothing is sent to the engine and the world
    is left as it was. *)
Theorem Create_unknown_subsystem sysid in_ (w : World E) name ns spec k :
  resolved_name sysid in_ = Some name ->
  CreateNvmeNamespaceRequest.NvmeNamespace in_ = Some ns ->
  NvmeNamespace.Spec ns = Some spec ->
  NvmeNamespaceSpec.SubsystemId spec = Some k ->
  Server.Namespaces (server w) !! name = None ->
  Server.Subsystems (server w) !! ObjectKey.Value k = None ->
  CreateNvmeNamespace sysid in_ w =
    (Fail (status_Error NotFound ("unable to find key " +:+ ObjectKey.Value k)), w).
Proof.
  intros Hr Hns Hspec Hk Hl Hs.
  rewrite (Create_fresh _ _ _ _ _ _ _ Hr Hns Hspec Hk Hl). by rewrite Hs.
Qed.

(** X6.  Create of a free name under a known subsystem panics when the
    request has no volume reference or no uuid, or when the subsystem has no
    [Spec]: lines 77-81 read through these pointers.  Nothing is sent and
    nothing is registered. *)
Theorem Create_nil_field_panics sysid in_ (w : World E) name ns spec k subsys :
  resolved_name sysid in_ = Some name ->
  CreateNvmeNamespaceRequest.NvmeNamespace in_ = Some ns ->
  NvmeNamespace.Spec ns = Some spec ->
  NvmeNamespaceSpec.SubsystemId spec = Some k ->
  Server.Namespaces (server w) !! name = None ->
  Server.Subsystems (server w) !! ObjectKey.Value k = Some subsys ->
  NvmeNamespaceSpec.VolumeId spec = None \/ NvmeSubsystem.Spec subsys = None \/
    NvmeNamespaceSpec.Uuid spec = None ->
  CreateNvmeNamespace sysid in_ w = (Panic, w).
Proof.
  intros Hr Hns Hspec Hk Hl Hs Hnil.
  rewrite (Create_fresh _ _ _ _ _ _ _ Hr Hns Hspec Hk Hl). rewrite Hs.
  destruct Hnil as [->|[->| ->]]; [done| |].
  - by destruct (NvmeNamespaceSpec.VolumeId spec).
  - by destruct (NvmeNamespaceSpec.VolumeId spec), (NvmeSubsystem.Spec subsys).
Qed.

(** ** DeleteNvmeNamespace *)


(** X8.  A successful Create of a free name followed by a successful Delete
    of that name restores the server: registry, directory and pagination
    store are as before.  The two calls have sent an attach and a detach
    with the same nsid and the same subnqn. *)
Theorem Create_Delete_round_trip sysid in_ (w : World E) name r w1 in_d w2 :
  resolved_name sysid in_ = Some name ->
  Server.Namespaces (server w) !! name = None ->
  CreateNvmeNamespace sysid in_ w = (Return r, w1) ->
  DeleteNvmeNamespaceRequest.Name in_d = name ->
  DeleteNvmeNamespace in_d w1 = (Return Empty.mk, w2) ->
  server w2 = server w /\
  exists attach detach,
    calls w2 = (calls w ++ [sent (controller_nvme_namespace_attach attach);
                            sent (controller_nvme_namespace_detach detach)])%list /\
    NvdaControllerNvmeNamespaceDetachParams.Nsid detach =
      NvdaControllerNvmeNamespaceAttachParams.Nsid attach /\
    NvdaControllerNvmeNamespaceDetachParams.Subnqn detach =
      NvdaControllerNvmeNamespaceAttachParams.Subnqn attach.
Proof.
  intros Hr Hl Hc Hname Hd.
  pose proof (resolved_name_Some _ _ _ Hr)
    as (ns & spec & k & rid & Hv & Hns & Hspec & Hk & Hne & _).
  rewrite (Create_fresh _ _ _ _ _ _ _ Hr Hns Hspec Hk Hl) in Hc.
  destruct (Server.Subsystems (server w) !! ObjectKey.Value k) as [subsys|] eqn:Hs; [|done].
  destruct (NvmeNamespaceSpec.VolumeId spec) as [volumeId|]; [|done].
  destruct (NvmeSubsystem.Spec subsys) as [subsysSpec|] eqn:Hss; [|done].
  destruct (NvmeNamespaceSpec.Uuid spec) as [uuid|]; [|done].
  simpl in Hc.
  destruct (Call _ (engine w)) as [[err|[]] e1]; simplify_eq/=.
  revert Hd. unfold DeleteNvmeNamespace. unfold_M.
  destruct (ValidateRequiredFields_Delete in_d); [done|]. simpl.
  destruct (resourcename_Validate _); [done|]. simpl.
  rewrite lookup_insert_eq. simpl. rewrite Hk. simpl.
  rewrite Hs. rewrite Hss. simpl.
  destruct (Call _ e1) as [[err|[]] e2]; [done| |done]. simpl.
  intros [= <-]. simpl. split.
  - unfold set_Namespaces. simpl. rewrite delete_insert_id by done.
    by destruct (server w).
  - eexists _, _. rewrite <- app_assoc. simpl. split_and!; reflexivity.
Qed.

(** X9.  In a registry keyed by the names of its entries, a successful
    Delete leaves the name unregistered, and the same request again succeeds
    with [AllowMissing] and fails with [NotFound] without it, sending
    nothing. *)
Theorem Delete_twice in_ (w : World E) w1 :
  registry_keyed (server w) ->
  DeleteNvmeNamespace in_ w = (Return Empty.mk, w1) ->
  Server.Namespaces (server w1) !! DeleteNvmeNamespaceRequest.Name in_ = None /\
  DeleteNvmeNamespace in_ w1 =
    (if DeleteNvmeNamespaceRequest.AllowMissing in_
     then Return Empty.mk
     else Fail (status_Error NotFound
                  ("unable to find key " +:+ DeleteNvmeNamespaceRequest.Name in_)),
     w1).
Proof.
  intros Hkeyed Hd.
  assert (ValidateRequiredFields_Delete in_ = None /\
          resourcename_Validate (DeleteNvmeNamespaceRequest.Name in_) = None /\
          Server.Namespaces (server w1) !! DeleteNvmeNamespaceRequest.Name in_ = None)
    as (Hv & Hn & Hl).
  { revert Hd. unfold DeleteNvmeNamespace. unfold_M.
    destruct (ValidateRequiredFields_Delete in_); [done|]. simpl.
    destruct (resourcename_Validate _); [done|]. simpl.
    destruct (Server.Namespaces (server w) !! _) as [namespace|] eqn:Hl.
    - destruct (Hkeyed _ _ Hl) as [Hname _].
      repeat (case_match; simplify_eq/=); try done.
      intros [= <-]. split_and!; [done..|]. simpl. rewrite Hname. apply lookup_delete_eq.
    - destruct (DeleteNvmeNamespaceRequest.AllowMissing in_); [|done].
      by intros [= <-]. }
  split; [done|].
  unfold DeleteNvmeNamespace. unfold_M. rewrite Hv, Hn. simpl. rewrite Hl.
  by destruct (DeleteNvmeNamespaceRequest.AllowMissing in_).
Qed.

(** ** GetNvmeNamespace *)


(** ** All handlers *)

(** X11.  A call sends at most one command to the engine, of the kind of its
    handler (attach for Create, detach for Delete, list for List and Get,
    iostat for Stats, none for Update), and never rewrites the log of the
    commands sent before. *)
Theorem one_command_per_call (op : Op) (w : World E) :
  calls (exec op w) = calls w \/
  exists c, may_send op c = true /\ calls (exec op w) = (calls w ++ [c])%list.
Proof.
  destruct op as [sysid in_|in_|in_|u in_|in_|in_|subsystems e]; simpl.
  - unfold CreateNvmeNamespace. unfold_M.
    repeat (case_match; simplify_eq/=);
      first [by left | right; eexists; split; [|reflexivity]; reflexivity].
  - unfold DeleteNvmeNamespace. unfold_M.
    repeat (case_match; simplify_eq/=);
      first [by left | right; eexists; split; [|reflexivity]; reflexivity].
  - unfold UpdateNvmeNamespace. unfold_M.
    repeat (case_match; simplify_eq/=); by left.
  - unfold ListNvmeNamespaces. unfold_M.
    repeat (case_match; simplify_eq/=);
      first [by left | right; eexists; split; [|reflexivity]; reflexivity].
  - unfold GetNvmeNamespace. unfold_M.
    repeat (case_match; simplify_eq/=);
      first [by left | right; eexists; split; [|reflexivity]; reflexivity].
  - unfold NvmeNamespaceStats. unfold_M.
    repeat (case_match; simplify_eq/=);
      first [by left | right; eexists; split; [|reflexivity]; reflexivity].
  - by left.
Qed.

(** X12.  No handler writes the directory of subsystems.  Create and Delete
    leave the pagination store alone; List leaves the registry alone and
    never forgets a token; Update, Get and Stats leave the whole server as it
    was. *)
Theorem handlers_frame (op : Op) (w : World E) :
  match op with
  | Environment _ _ => True
  | Create _ _ | Delete _ =>
      Server.Subsystems (server (exec op w)) = Server.Subsystems (server w) /\
      Server.Pagination (server (exec op w)) = Server.Pagination (server w)
  | List _ _ =>
      Server.Subsystems (server (exec op w)) = Server.Subsystems (server w) /\
      Server.Namespaces (server (exec op w)) = Server.Namespaces (server w) /\
      forall token, is_Some (Server.Pagination (server w) !! token) ->
                    is_Some (Server.Pagination (server (exec op w)) !! token)
  | Update _ | Get _ | Stats _ => server (exec op w) = server w
  end.
Proof.
  destruct op as [sysid in_|in_|in_|u in_|in_|in_|subsystems e]; simpl.
  - destruct (Create_server sysid in_ w) as [->|(? & ? & _ & _ & ->)]; done.
  - destruct (Delete_server in_ w) as [->|(? & ->)]; done.
  - apply Update_server.
  - destruct (List_server u in_ w) as [->|(offset & ->)]; [done|].
    split_and!; [done..|]. intros token Htoken. simpl.
    destruct (decide (uuid.String u = token)) as [->|].
    + rewrite lookup_insert_eq. eauto.
    + by rewrite lookup_insert_ne.
  - apply Get_server.
  - apply Stats_server.
  - done.
Qed.

(** ** ListNvmeNamespaces *)

(** X13.  The response of a successful List has an empty [NextPageToken],
    also when the page was cut short and a token stored. *)
Theorem List_returns_no_token u in_ (w : World E) resp w' :
  ListNvmeNamespaces u in_ w = (Return resp, w') ->
  ListNvmeNamespacesResponse.NextPageToken resp = "".
Proof. apply List_NextPageToken. Qed.

(** X14.  A successful List returns exactly [min k (n - o)] entries for a
    listing of [n] elements; when elements remain, the offset stored with the
    token is [o] plus the number of entries returned. *)
Theorem List_page_length u in_ (w : World E) resp w' k o l :
  ListNvmeNamespaces u in_ w = (Return resp, w') ->
  ExtractPagination (ListNvmeNamespacesRequest.PageSize in_)
    (ListNvmeNamespacesRequest.PageToken in_) (Server.Pagination (server w)) = inr (k, o) ->
  is_int k -> is_int o ->
  engine_listing (ListNvmeNamespacesRequest.Parent in_) w = Some l ->
  let returned := Z.of_nat (length (ListNvmeNamespacesResponse.NvmeNamespaces resp)) in
  returned = Z.min k (Z.of_nat (length l) - o) /\
  (o + k < Z.of_nat (length l) ->
   Server.Pagination (server w') !! uuid.String u = Some (o + returned)).
Proof.
  intros Hl Hp Hk Ho He returned.
  destruct (List_Return _ _ _ _ _ _ _ Hl Hp)
    as (l' & page & more & He' & Hlim & Hresp & Hpag).
  rewrite He in He'. injection He' as <-.
  apply LimitPagination_Return in Hlim as (Hor & Hk0 & -> & -> & Hadd); [|done..].
  assert (returned = Z.min k (Z.of_nat (length l) - o)) as Hreturned.
  { subst returned. rewrite Hresp, merge_sort_Permutation, length_map.
    unfold window. rewrite length_take, length_drop. lia. }
  split; [done|]. intros Hmore. rewrite Hpag.
  rewrite bool_decide_eq_true_2 in * by done. rewrite Hadd by done.
  rewrite lookup_insert_eq. f_equal. lia.
Qed.

(** X15.  Once the page is resolved and the engine has answered, List
    succeeds exactly when the offset lies within the listing and the size is
    not negative (their sum being a Go [int]).  Otherwise, as with a token
    whose offset lies beyond a listing that has shrunk, the call panics
    after the list command was sent, the server being left as it was. *)
Theorem List_bounds u in_ (w : World E) k o l :
  ValidateRequiredFields_List in_ = None ->
  ExtractPagination (ListNvmeNamespacesRequest.PageSize in_)
    (ListNvmeNamespacesRequest.PageToken in_) (Server.Pagination (server w)) = inr (k, o) ->
  is_int k -> is_int o ->
  engine_listing (ListNvmeNamespacesRequest.Parent in_) w = Some l ->
  if decide (0 <= o <= Z.of_nat (length l) /\ 0 <= k /\ o + k < 2 ^ 63)
  then succeeded (fst (ListNvmeNamespaces u in_ w))
  else fst (ListNvmeNamespaces u in_ w) = Panic /\
       server (snd (ListNvmeNamespaces u in_ w)) = server w /\
       exists c, is_list c = true /\
                 calls (snd (ListNvmeNamespaces u in_ w)) = (calls w ++ [c])%list.
Proof.
  intros Hv Hp Hk Ho Hlisting.
  apply engine_listing_Some in Hlisting
    as (subsys & subsysSpec & result_ & e' & Hs & Hss & Hc & ->).
  rewrite (List_listed _ _ _ _ _ _ _ Hv Hp Hs Hss). rewrite Hc. simpl.
  rewrite (LimitPagination_cases _ _ _ Ho Hk).
  destruct (decide _); [done|]. simpl. split_and!; [done..|].
  eexists. split; [|reflexivity]. done.
Qed.

(** X16.  Two successful pages of the same size over the same listing, the
    second resolved at the offset stored by the first, together hold the
    entries of the window of twice the size: no element between the two is
    lost or repeated. *)
Theorem List_consecutive_pages u1 in1 (w1 : World E) resp1 w1'
    u2 in2 (w2 : World E) resp2 w2' k o l :
  ListNvmeNamespaces u1 in1 w1 = (Return resp1, w1') ->
  ExtractPagination (ListNvmeNamespacesRequest.PageSize in1)
    (ListNvmeNamespacesRequest.PageToken in1) (Server.Pagination (server w1)) = inr (k, o) ->
  engine_listing (ListNvmeNamespacesRequest.Parent in1) w1 = Some l ->
  ListNvmeNamespaces u2 in2 w2 = (Return resp2, w2') ->
  ExtractPagination (ListNvmeNamespacesRequest.PageSize in2)
    (ListNvmeNamespacesRequest.PageToken in2) (Server.Pagination (server w2)) =
    inr (k, o + k) ->
  engine_listing (ListNvmeNamespacesRequest.Parent in2) w2 = Some l ->
  is_int k -> is_int o -> is_int (o + k) ->
  (ListNvmeNamespacesResponse.NvmeNamespaces resp1 ++
   ListNvmeNamespacesResponse.NvmeNamespaces resp2)%list
    ≡ₚ map list_entry (window l o (k + k)).
Proof.
  intros Hl1 Hp1 He1 Hl2 Hp2 He2 Hk Ho Hok.
  destruct (List_Return _ _ _ _ _ _ _ Hl1 Hp1) as (? & page1 & more1 & ? & Hlim1 & -> & _).
  destruct (List_Return _ _ _ _ _ _ _ Hl2 Hp2) as (? & page2 & more2 & ? & Hlim2 & -> & _).
  simplify_eq.
  apply LimitPagination_Return in Hlim1 as (Hor & Hk0 & -> & _); [|done..].
  apply LimitPagination_Return in Hlim2 as (_ & _ & -> & _); [|done..].
  rewrite !merge_sort_Permutation, <- map_app, window_consecutive by lia. done.
Qed.

(** X17.  List does not read the registry: over any other registry the
    outcome is the same. *)
Theorem List_ignores_registry u in_ (w : World E) namespaces :
  ListNvmeNamespaces u in_ (with_Namespaces namespaces w) =
    (fst (ListNvmeNamespaces u in_ w),
     with_Namespaces namespaces (snd (ListNvmeNamespaces u in_ w))).
Proof.
  unfold ListNvmeNamespaces, with_Namespaces. unfold_M.
  destruct w as [[registry subsystems pagination] e cs]. simpl.
  repeat (case_match; simplify_eq/=); done.
Qed.

(** X18.  List fails before it reaches the engine when the page cannot be
    resolved (the error of [ExtractPagination] is returned as it is, also
    for an unknown parent) or when the parent is not in the directory
    ([NotFound]); the world is left as it was. *)
Theorem List_fails_before_engine u in_ (w : World E) :
  ValidateRequiredFields_List in_ = None ->
  match ExtractPagination (ListNvmeNamespacesRequest.PageSize in_)
          (ListNvmeNamespacesRequest.PageToken in_) (Server.Pagination (server w)) with
  | inl perr => ListNvmeNamespaces u in_ w = (Fail perr, w)
  | inr _ =>
      Server.Subsystems (server w) !! ListNvmeNamespacesRequest.Parent in_ = None ->
      ListNvmeNamespaces u in_ w =
        (Fail (status_Error NotFound
                 ("unable to find key " +:+ ListNvmeNamespacesRequest.Parent in_)), w)
  end.
Proof.
  intros Hv. unfold ListNvmeNamespaces. unfold_M. rewrite Hv. simpl.
  destruct (ExtractPagination _ _ _) as [perr|[k o]]; [done|]. simpl.
  by intros ->.
Qed.

(** ** NvmeNamespaceStats *)

(** X20.  Stats takes the first device whose name is the volume reference,
    in the order of the controllers and of their devices: later devices of
    the same name are not looked at.  One iostat command is sent. *)
Theorem Stats_first_match in_ (w : World E) id namespace spec vol cs1 b1 r b2 cs2 e' :
  ValidateRequiredFields_Stats in_ = None ->
  NvmeNamespaceStatsRequest.NamespaceId in_ = Some id ->
  resourcename_Validate (ObjectKey.Value id) = None ->
  Server.Namespaces (server w) !! ObjectKey.Value id = Some namespace ->
  NvmeNamespace.Spec namespace = Some spec ->
  NvmeNamespaceSpec.VolumeId spec = Some vol ->
  Call controller_nvme_get_iostat (engine w) =
    (inr (NvdaControllerNvmeStatsResult.mk
            (cs1 ++ NvdaControllerStats.mk (b1 ++ r :: b2) :: cs2)), e') ->
  (forall c r', c ∈ cs1 -> r' ∈ NvdaControllerStats.Bdevs c ->
                NvdaBdevStats.BdevName r' <> ObjectKey.Value vol) ->
  (forall r', r' ∈ b1 -> NvdaBdevStats.BdevName r' <> ObjectKey.Value vol) ->
  NvdaBdevStats.BdevName r = ObjectKey.Value vol ->
  NvmeNamespaceStats in_ w =
    (Return (NvmeNamespaceStatsResponse.mk (Some id)
               (Some (VolumeStats.mk (to_int32 (NvdaBdevStats.ReadIos r))
                                     (to_int32 (NvdaBdevStats.WriteIos r))))),
     mkWorld (server w) e' (calls w ++ [sent controller_nvme_get_iostat])).
Proof.
  intros Hv Hid Hn Hl Hspec Hvol Hc Hcs1 Hb1 Hr.
  unfold NvmeNamespaceStats. unfold_M. rewrite Hv, Hid. simpl. rewrite Hn. simpl.
  rewrite Hl, Hc. simpl. rewrite Hspec. simpl. rewrite Hvol. simpl.
  rewrite scan_Controllers_app by (by apply scan_Controllers_None).
  simpl. by rewrite scan_Bdevs_first.
Qed.

(** X21.  Stats of a name that is not registered fails with [NotFound] and
    sends nothing; for a registered name an error of the engine is returned
    as it is. *)
Theorem Stats_failures in_ (w : World E) id :
  ValidateRequiredFields_Stats in_ = None ->
  NvmeNamespaceStatsRequest.NamespaceId in_ = Some id ->
  resourcename_Validate (ObjectKey.Value id) = None ->
  match Server.Namespaces (server w) !! ObjectKey.Value id with
  | None =>
      NvmeNamespaceStats in_ w =
        (Fail (status_Error NotFound ("unable to find key " +:+ ObjectKey.Value id)), w)
  | Some _ =>
      forall err e',
        Call controller_nvme_get_iostat (engine w) = (inl err, e') ->
        NvmeNamespaceStats in_ w =
          (Fail err, mkWorld (server w) e' (calls w ++ [sent controller_nvme_get_iostat]))
  end.
Proof.
  intros Hv Hid Hn. unfold NvmeNamespaceStats. unfold_M.
  rewrite Hv, Hid. simpl. rewrite Hn. simpl.
  destruct (Server.Namespaces (server w) !! _); [|done].
  intros err e' Hc. by rewrite Hc.
Qed.

(** ** The registry along a run *)

(** X22.  Along every run that starts from an empty registry, every
    registered entry carries the attached status and a [Spec] with a
    subsystem reference that is not empty, a volume reference and a
    uuid. *)
Theorem registry_well_formed_reachable (w0 : World E) (ops : list Op) :
  Server.Namespaces (server w0) = ∅ ->
  registry_well_formed (server (run ops w0)).
Proof.
  intros Hempty.
  assert (registry_well_formed (server w0)) as Hwf.
  { intros k namespace. rewrite Hempty. by rewrite lookup_empty. }
  clear Hempty. revert w0 Hwf.
  induction ops as [|op ops IH]; intros w0 Hwf; [done|].
  simpl. apply IH. by apply registry_well_formed_exec.
Qed.

(** X23.  Over a registry of such entries and a directory whose subsystems
    all have their [Spec], Delete and Get never panic, and Stats never
    panics for a request that names a namespace. *)
Theorem no_panic_on_well_formed (w : World E) :
  registry_well_formed (server w) ->
  directory_well_formed (server w) ->
  (forall in_, fst (DeleteNvmeNamespace in_ w) <> Panic) /\
  (forall in_, fst (GetNvmeNamespace in_ w) <> Panic) /\
  (forall in_, NvmeNamespaceStatsRequest.NamespaceId in_ <> None ->
               fst (NvmeNamespaceStats in_ w) <> Panic).
Proof.
  intros Hwf Hdir. split_and!.
  - intros in_. unfold DeleteNvmeNamespace. unfold_M.
    repeat (case_match; simplify_eq/=); try done.
    all: match goal with
         | H : Server.Namespaces _ !! _ = Some _ |- _ =>
             destruct (Hwf _ _ H) as (_ & ? & ? & ? & ? & ? & ? & _)
         end; try congruence.
    all: match goal with
         | H : Server.Subsystems _ !! _ = Some _ |- _ => by destruct (Hdir _ _ H)
         end.
  - intros in_. unfold GetNvmeNamespace. unfold_M.
    repeat (case_match; simplify_eq/=); try done.
    all: match goal with
         | H : Server.Namespaces _ !! _ = Some _ |- _ =>
             destruct (Hwf _ _ H) as (_ & ? & ? & ? & ? & ? & ? & _)
         end; try congruence.
    all: match goal with
         | H : Server.Subsystems _ !! _ = Some _ |- _ => by destruct (Hdir _ _ H)
         end.
  - intros in_ Hid. unfold NvmeNamespaceStats. unfold_M.
    repeat (case_match; simplify_eq/=); try done.
    all: match goal with
         | H : Server.Namespaces _ !! _ = Some _ |- _ =>
             destruct (Hwf _ _ H) as (_ & ? & ? & ? & ? & ? & ? & ? & ? & ?)
         end; congruence.
Qed.

End MoreProperties.

(** ** sortNvmeNamespaces *)

(** X19.  On namespaces that all have a [Spec], [sortNvmeNamespaces] returns
    a rearrangement of its argument in ascending order of [HostNsid]. *)
Theorem sortNvmeNamespaces_sorts (namespaces : list NvmeNamespace.t) :
  Forall (fun n => has_Spec n = true) namespaces ->
  exists sorted,
    sortNvmeNamespaces namespaces = Return sorted /\
    sorted ≡ₚ namespaces /\
    StronglySorted HostNsid_le sorted.
Proof.
  intros Hall. exists (merge_sort HostNsid_le namespaces). split_and!.
  - unfold sortNvmeNamespaces.
    assert (forallb has_Spec namespaces = true) as ->.
    { apply forallb_forall. intros n Hn. rewrite Forall_forall in Hall.
      by apply Hall, list_elem_of_In. }
    simpl. by rewrite andb_false_r.
  - apply merge_sort_Permutation.
  - apply StronglySorted_merge_sort; apply _.
Qed.

(** * Further examples *)

Section MoreExamples.

Import Sample Scenario.

#[local] Existing Instance scripted.
#[local] Existing Instance accepting.

Lemma Update_never_applies_witness :
  fst (UpdateNvmeNamespace update1 (world1 registry1 [5])) =
    Fail (status_Error Unimplemented "UpdateNvmeNamespace method is not implemented") /\
  fst (UpdateNvmeNamespace update1 (world1 ∅ [5])) =
    Fail (status_Error NotFound ("unable to find key " +:+ name1)).
Proof.
  split.
  - exact (proj2 (proj2 (Update_never_applies update1 (world1 registry1 [5])))
             (NvmeNamespace.mk name1 (Some (spec1 "volumes/v9" 9)) None)
             eq_refl eq_refl eq_refl).
  - exact (proj2 (proj2 (Update_never_applies update1 (world1 ∅ [5])))
             (NvmeNamespace.mk name1 (Some (spec1 "volumes/v9" 9)) None)
             eq_refl eq_refl eq_refl).
Defined.

Lemma Create_attach_witness :
  CreateNvmeNamespace "sys" (create1 "volumes/v1" 5) (world1 ∅ []) =
    (Return (stored1 "volumes/v1" 5),
     mkWorld (Server.mk {[ name1 := stored1 "volumes/v1" 5 ]} subsystems1 ∅)
             (engine1 []) [attach1 "volumes/v1" 5]) /\
  CreateNvmeNamespace "sys" (create1 "volumes/v1" 5)
      (mkWorld (Server.mk ∅ subsystems1 ∅) unreachable []) =
    (Fail (foreign_error "connection refused"),
     mkWorld (Server.mk ∅ subsystems1 ∅) unreachable [attach1 "volumes/v1" 5]).
Proof.
  split.
  - pose proof (Create_attach "sys" (create1 "volumes/v1" 5) (world1 ∅ []) name1
                  (NvmeNamespace.mk "" (Some (spec1 "volumes/v1" 5)) None)
                  (spec1 "volumes/v1" 5) (ObjectKey.mk "subsystems/nqn-1")
                  (NvmeSubsystem.mk (Some (NvmeSubsystemSpec.mk "nqn.2022-09.io.spdk:opi1")))
                  (NvmeSubsystemSpec.mk "nqn.2022-09.io.spdk:opi1")
                  (ObjectKey.mk "volumes/v1")
                  (Uuid.mk "1b4e28ba-2fa1-11d2-883f-b9a761bde3fb")
                  eq_refl eq_refl eq_refl eq_refl eq_refl eq_refl eq_refl eq_refl eq_refl)
      as Hattach.
    rewrite Hattach. vm_compute. reflexivity.
  - pose proof (Create_attach "sys" (create1 "volumes/v1" 5)
                  (mkWorld (Server.mk ∅ subsystems1 ∅) unreachable []) name1
                  (NvmeNamespace.mk "" (Some (spec1 "volumes/v1" 5)) None)
                  (spec1 "volumes/v1" 5) (ObjectKey.mk "subsystems/nqn-1")
                  (NvmeSubsystem.mk (Some (NvmeSubsystemSpec.mk "nqn.2022-09.io.spdk:opi1")))
                  (NvmeSubsystemSpec.mk "nqn.2022-09.io.spdk:opi1")
                  (ObjectKey.mk "volumes/v1")
                  (Uuid.mk "1b4e28ba-2fa1-11d2-883f-b9a761bde3fb")
                  eq_refl eq_refl eq_refl eq_refl eq_refl eq_refl eq_refl eq_refl eq_refl)
      as Hattach.
    rewrite Hattach. vm_compute. reflexivity.
Defined.

Lemma Create_ignores_Name_Status_witness :
  let named :=
    CreateNvmeNamespaceRequest.mk
      (Some (NvmeNamespace.mk "namespaces/other" (Some (spec1 "volumes/v1" 5))
               (Some (NvmeNamespaceStatus.mk 0 0))))
      "ns1" in
  CreateNvmeNamespace "sys" named (world1 ∅ []) =
  CreateNvmeNamespace "sys" (create1 "volumes/v1" 5) (world1 ∅ []).
Proof.
  intros named.
  apply (Create_ignores_Name_Status "sys" named (create1 "volumes/v1" 5) (world1 ∅ []));
    reflexivity.
Defined.

Lemma Create_invalid_subsystem_witness :
  let in_ :=
    CreateNvmeNamespaceRequest.mk
      (Some (NvmeNamespace.mk ""
               (Some (NvmeNamespaceSpec.mk (key "") (key "volumes/v1") 5 None "" 0)) None))
      "ns1" in
  CreateNvmeNamespace "sys" in_ (world1 ∅ []) =
    (Fail (status_Error InvalidArgument "invalid input subsystem parameters"), world1 ∅ []).
Proof.
  intros in_.
  apply (Create_invalid_subsystem "sys" in_ (world1 ∅ [])
           (NvmeNamespace.mk ""
              (Some (NvmeNamespaceSpec.mk (key "") (key "volumes/v1") 5 None "" 0)) None));
    reflexivity.
Defined.

Lemma Create_unknown_subsystem_witness :
  let w := mkWorld (Server.mk ∅ ∅ ∅) (engine1 []) [] in
  CreateNvmeNamespace "sys" (create1 "volumes/v1" 5) w =
    (Fail (status_Error NotFound "unable to find key subsystems/nqn-1"), w).
Proof.
  intros w.
  apply (Create_unknown_subsystem "sys" (create1 "volumes/v1" 5) w name1
           (NvmeNamespace.mk "" (Some (spec1 "volumes/v1" 5)) None)
           (spec1 "volumes/v1" 5) (ObjectKey.mk "subsystems/nqn-1"));
    vm_compute; reflexivity.
Defined.

Lemma Create_nil_field_panics_witness :
  CreateNvmeNamespace "sys" create_without_uuid (world1 ∅ []) = (Panic, world1 ∅ []).
Proof.
  apply (Create_nil_field_panics "sys" create_without_uuid (world1 ∅ []) name1
           (NvmeNamespace.mk ""
              (Some (NvmeNamespaceSpec.mk (key "subsystems/nqn-1") (key "volumes/v1") 5
                       None "1b4e28ba2fa111d2" 0)) None)
           (NvmeNamespaceSpec.mk (key "subsystems/nqn-1") (key "volumes/v1") 5
              None "1b4e28ba2fa111d2" 0)
           (ObjectKey.mk "subsystems/nqn-1")
           (NvmeSubsystem.mk (Some (NvmeSubsystemSpec.mk "nqn.2022-09.io.spdk:opi1"))));
    try (vm_compute; reflexivity).
  right. right. reflexivity.
Defined.


Lemma Create_Delete_round_trip_witness :
  let w := world1 ∅ [5] in
  let w1 := snd (CreateNvmeNamespace "sys" (create1 "volumes/v1" 5) w) in
  let w2 := snd (DeleteNvmeNamespace (delete1 false) w1) in
  Server.Namespaces (server w1) = {[ name1 := stored1 "volumes/v1" 5 ]} /\
  server w2 = server w /\
  calls w2 = [attach1 "volumes/v1" 5; detach1 5].
Proof.
  intros w w1 w2.
  destruct (Create_Delete_round_trip "sys" (create1 "volumes/v1" 5) w name1
              (stored1 "volumes/v1" 5) w1 (delete1 false) w2)
    as [Hserver _]; try (vm_compute; reflexivity).
  split_and!; [vm_compute; reflexivity|exact Hserver|vm_compute; reflexivity].
Defined.

Lemma Delete_twice_witness :
  let w := world1 registry1 [5] in
  let w1 := snd (DeleteNvmeNamespace (delete1 false) w) in
  DeleteNvmeNamespace (delete1 false) w = (Return Empty.mk, w1) /\
  DeleteNvmeNamespace (delete1 false) w1 =
    (Fail (status_Error NotFound ("unable to find key " +:+ name1)), w1).
Proof.
  intros w w1.
  assert (DeleteNvmeNamespace (delete1 false) w = (Return Empty.mk, w1)) as Hd
    by (vm_compute; reflexivity).
  split; [exact Hd|].
  refine (proj2 (Delete_twice (delete1 false) w w1 _ Hd)).
  intros k namespace Hl. subst w. unfold world1, registry1 in Hl. simpl in Hl.
  apply lookup_singleton_Some in Hl as [<- <-].
  split; [reflexivity|]. exists "ns1". reflexivity.
Defined.



Lemma List_returns_no_token_witness :
  let w := world1 ∅ [3; 1; 2] in
  let w' := snd (ListNvmeNamespaces u1 page_of_two w) in
  let resp := ListNvmeNamespacesResponse.mk [entry 1; entry 3] "" in
  ListNvmeNamespaces u1 page_of_two w = (Return resp, w') /\
  Server.Pagination (server w') !! token1 = Some 2 /\
  ListNvmeNamespacesResponse.NextPageToken resp = "".
Proof.
  intros w w' resp.
  assert (ListNvmeNamespaces u1 page_of_two w = (Return resp, w')) as Hl
    by (vm_compute; reflexivity).
  split_and!; [exact Hl|vm_compute; reflexivity|].
  exact (List_returns_no_token u1 page_of_two w resp w' Hl).
Defined.

Lemma List_page_length_witness :
  let w := world1 ∅ [3; 1; 2] in
  let w' := snd (ListNvmeNamespaces u1 page_of_two w) in
  Server.Pagination (server w') !! uuid.String u1 = Some (0 + 2).
Proof.
  intros w w'.
  destruct (List_page_length u1 page_of_two w
              (ListNvmeNamespacesResponse.mk [entry 1; entry 3] "") w' 2 0
              (map NvdaNamespace.mk [3; 1; 2])) as [_ Hstored];
    [vm_compute; reflexivity|vm_compute; reflexivity|by vm_compute|by vm_compute
    |vm_compute; reflexivity|].
  apply Hstored. by vm_compute.
Defined.

Lemma List_bounds_witness :
  fst (ListNvmeNamespaces u1 next_page (world_with_token 5 [3; 1])) = Panic /\
  succeeded (fst (ListNvmeNamespaces u1 next_page (world_with_token 2 [3; 1]))).
Proof.
  split.
  - pose proof (List_bounds u1 next_page (world_with_token 5 [3; 1]) 2 5
                  (map NvdaNamespace.mk [3; 1])
                  eq_refl eq_refl) as Hbounds.
    destruct (decide _) as [Hin|_] in Hbounds.
    + vm_compute in Hin. by destruct Hin as [[_ []] _].
    + apply Hbounds; [by vm_compute|by vm_compute|vm_compute; reflexivity].
  - pose proof (List_bounds u1 next_page (world_with_token 2 [3; 1]) 2 2
                  (map NvdaNamespace.mk [3; 1])
                  eq_refl eq_refl) as Hbounds.
    destruct (decide _) as [_|Hout] in Hbounds.
    + apply Hbounds; [by vm_compute|by vm_compute|vm_compute; reflexivity].
    + destruct Hout. by vm_compute.
Defined.

Lemma List_consecutive_pages_witness :
  let w := world1 ∅ [3; 1; 2; 4] in
  let w' := snd (ListNvmeNamespaces u1 page_of_two w) in
  fst (ListNvmeNamespaces u1 page_of_two w) =
    Return (ListNvmeNamespacesResponse.mk [entry 1; entry 3] "") /\
  fst (ListNvmeNamespaces u1 next_page w') =
    Return (ListNvmeNamespacesResponse.mk [entry 2; entry 4] "") /\
  [entry 1; entry 3; entry 2; entry 4]
    ≡ₚ map list_entry (window (map NvdaNamespace.mk [3; 1; 2; 4]) 0 (2 + 2)).
Proof.
  intros w w'.
  split_and!; [vm_compute; reflexivity..|].
  apply (List_consecutive_pages
           u1 page_of_two w (ListNvmeNamespacesResponse.mk [entry 1; entry 3] "") w'
           u1 next_page w' (ListNvmeNamespacesResponse.mk [entry 2; entry 4] "")
           (snd (ListNvmeNamespaces u1 next_page w')) 2 0
           (map NvdaNamespace.mk [3; 1; 2; 4]));
    first [by vm_compute | vm_compute; reflexivity].
Defined.

Lemma List_fails_before_engine_witness :
  ListNvmeNamespaces u1 next_page (world1 ∅ [3; 1]) =
    (Fail (status_Error NotFound ("unable to find pagination token " +:+ token1)),
     world1 ∅ [3; 1]) /\
  ListNvmeNamespaces u1 (ListNvmeNamespacesRequest.mk "subsystems/none" 2 "")
      (world1 ∅ [3; 1]) =
    (Fail (status_Error NotFound "unable to find key subsystems/none"), world1 ∅ [3; 1]).
Proof.
  split.
  - exact (List_fails_before_engine u1 next_page (world1 ∅ [3; 1]) eq_refl).
  - exact (List_fails_before_engine u1
             (ListNvmeNamespacesRequest.mk "subsystems/none" 2 "") (world1 ∅ [3; 1])
             eq_refl eq_refl).
Defined.

Lemma sortNvmeNamespaces_sorts_witness :
  exists sorted,
    sortNvmeNamespaces [entry 3; entry 1; entry 2] = Return sorted /\
    sorted ≡ₚ [entry 3; entry 1; entry 2] /\
    StronglySorted HostNsid_le sorted.
Proof.
  apply sortNvmeNamespaces_sorts. repeat constructor.
Defined.

Lemma Stats_first_match_witness :
  let w := mkWorld (Server.mk registry1 subsystems1 ∅) engine2 [] in
  fst (NvmeNamespaceStats stats1 w) =
    Return (NvmeNamespaceStatsResponse.mk (key name1) (Some (VolumeStats.mk 10 3))).
Proof.
  intros w.
  pose proof (Stats_first_match stats1 w (ObjectKey.mk name1) (stored1 "v1" 5)
                (spec1 "v1" 5) (ObjectKey.mk "v1")
                [] [NvdaBdevStats.mk "v0" 7 7] (NvdaBdevStats.mk "v1" 10 3) []
                [NvdaControllerStats.mk [NvdaBdevStats.mk "v1" 99 98]] engine2
                eq_refl eq_refl eq_refl eq_refl eq_refl eq_refl eq_refl) as Hfirst.
  rewrite Hfirst; [vm_compute; reflexivity|..].
  - by intros c r' Hc%elem_of_nil.
  - intros r' ->%list_elem_of_singleton. by vm_compute.
  - reflexivity.
Defined.

Lemma Stats_failures_witness :
  NvmeNamespaceStats stats1 (world1 ∅ [5]) =
    (Fail (status_Error NotFound ("unable to find key " +:+ name1)), world1 ∅ [5]) /\
  fst (NvmeNamespaceStats stats1 (mkWorld (Server.mk registry1 subsystems1 ∅) unreachable [])) =
    Fail (foreign_error "connection refused").
Proof.
  split.
  - exact (Stats_failures stats1 (world1 ∅ [5]) (ObjectKey.mk name1)
             eq_refl eq_refl eq_refl).
  - pose proof (Stats_failures stats1
                  (mkWorld (Server.mk registry1 subsystems1 ∅) unreachable [])
                  (ObjectKey.mk name1) eq_refl eq_refl eq_refl
                  (foreign_error "connection refused") unreachable eq_refl) as Hfail.
    by rewrite Hfail.
Defined.

Lemma registry_well_formed_reachable_witness :
  let ops : list (@Op Scripted) :=
    [Create "sys" (create1 "volumes/v1" 5);
     List u1 page_of_two;
     Create "sys" create_without_uuid] in
  Server.Namespaces (server (run ops (world1 ∅ [5]))) !! name1 =
    Some (stored1 "volumes/v1" 5) /\
  entry_well_formed (stored1 "volumes/v1" 5).
Proof.
  intros ops.
  assert (Server.Namespaces (server (run ops (world1 ∅ [5]))) !! name1 =
            Some (stored1 "volumes/v1" 5)) as Hl by (vm_compute; reflexivity).
  split; [exact Hl|].
  exact (registry_well_formed_reachable (world1 ∅ [5]) ops eq_refl name1 _ Hl).
Defined.

Lemma no_panic_on_well_formed_witness :
  fst (DeleteNvmeNamespace (delete1 false) (world1 registry1 [5])) <> Panic /\
  fst (GetNvmeNamespace get1 (world1 registry1 [5])) <> Panic /\
  fst (NvmeNamespaceStats stats1 (world1 registry1 [5])) <> Panic.
Proof.
  destruct (no_panic_on_well_formed (world1 registry1 [5])) as (Hd & Hg & Hs).
  - intros k namespace Hl. unfold world1, registry1 in Hl. simpl in Hl.
    apply lookup_singleton_Some in Hl as [<- <-].
    split; [reflexivity|]. eexists _, _, _, _. by split_and!.
  - intros k subsys Hl. unfold world1, subsystems1 in Hl. simpl in Hl.
    by apply lookup_singleton_Some in Hl as [<- <-].
  - split_and!; [apply Hd|apply Hg|by apply Hs].
Defined.

End MoreExamples.
